(** * zkpServer: the challenge-response core of [app/main.py]

    A shallow embedding of the proof derivation ([tokenize], [round_sig]),
    the time window ([time_seed]), the per-user record ([ZKUser]), the
    server ([ZKServer]) and the three JSON routes that sit on top of it,
    followed by the properties the specification states about them.

    Conventions.
    - Python [int] is [Z]; Python [float] is the kernel's binary64 [float],
      with [+], [abs] and [==] the IEEE operations of [PrimFloat].  The only
      integers that reach the float arithmetic are the literals [0] of
      [result = 0], [val = 0], [result += 0] and [return 0]; they are written
      [0%float], which [+], [==], [math.sin] and [math.tan] cannot tell from
      the integer.
    - The transcendental functions, [%], [**] and [round] come from the
      platform's math library; they are the fields of the class [MathLib],
      and every statement about the code is proved for every instance.
      [round] is also defined exactly, on the rational value of a float
      ([py_round]), and the runs that show a numeric result use the values
      the platform returns ([Platform]).
    - A call that can raise returns a [pyres]; an exception not caught by the
      code is propagated by [bind].
    - The clock and the random generator are inputs: a function that calls
      [datetime.now] takes the reading as an argument (one argument per
      call), and one that calls [random.randint] takes the number drawn. *)

From Stdlib Require Import ZArith Bool List String Ascii DecimalString DecimalZ Lia.
From Stdlib Require Import Floats.PrimFloat Floats.FloatOps Floats.SpecFloat.
From Stdlib Require Import QArith Qround Qabs Qpower.
From stdpp Require Import gmap strings.
Import ListNotations.

Local Open Scope string_scope.
Local Open Scope Z_scope.

(** ** Exceptions and results *)

Inductive exn : Type :=
| ValueError (msg : string)
| OverflowError (msg : string).

Inductive pyres (A : Type) : Type :=
| Ok (a : A)
| Raise (e : exn).

Arguments Ok {A} a.
Arguments Raise {A} e.

Definition bind {A B : Type} (m : pyres A) (k : A -> pyres B) : pyres B :=
  match m with
  | Ok a => k a
  | Raise e => Raise e
  end.

Notation "'let!' x ':=' m 'in' k" := (bind m (fun x => k))
  (at level 10, x name, m at level 100, k at level 200).

(** A list comprehension [[f(d) for d in s]]: elements are evaluated left to
    right and the first exception ends the comprehension. *)
Fixpoint comprehension {A B : Type} (f : A -> pyres B) (l : list A) : pyres (list B) :=
  match l with
  | [] => Ok []
  | d :: l' =>
      let! y := f d in
      let! ys := comprehension f l' in
      Ok (y :: ys)
  end.

(** ** The fragments of the Python runtime that [tokenize] uses *)

(** [str(key)]: the decimal numeral of an integer, with a leading [-] when it
    is negative, and the text [None] for the absent value.  Integers are
    converted whatever their size: the interpreter's configurable cap on the
    length of integer numerals is not part of the model. *)
Definition str (v : option Z) : string :=
  match v with
  | Some z => NilEmpty.string_of_int (Z.to_int z)
  | None => "None"
  end.

Definition is_digit (d : ascii) : bool :=
  let n := Z.of_N (N_of_ascii d) in (48 <=? n) && (n <=? 57).

(** [int(d)] on a one-character string. *)
Definition int (d : ascii) : pyres Z :=
  if is_digit d then Ok (Z.of_N (N_of_ascii d) - 48)
  else Raise (ValueError ("invalid literal for int() with base 10: '" ++ String d "'")).

(** The exceptions of the float operations, and the one [tokenize] raises
    itself. *)
Definition domain_error : exn := ValueError "math domain error".
Definition range_error : exn := OverflowError "(34, 'Numerical result out of range')".
Definition length_mismatch : exn := ValueError "Keys must be the same length.".

(** ** [KEY_LENGTH] and [time_seed] *)

Definition KEY_LENGTH : Z := 4.

(** What [datetime.now(timezone.utc)] returns, down to the second. *)
Record datetime : Type := mkdatetime {
  year : Z; month : Z; day : Z; hour : Z; minute : Z; second : Z
}.

(** [time_seed(offset)], [now_utc] being the reading of the clock. *)
Definition time_seed (now_utc : datetime) (offset : Z) : Z :=
  day now_utc * 100 + hour now_utc + offset.

(** The floating-point operations that [tokenize] and [round_sig] take from
    the platform.  They are parameters of the development: nothing is
    assumed about the values they return, and their types record what the
    Python calls can raise on the arguments they get here.
    - [log_int t] is [math.log(t, 10)] for a positive integer [t], the
      quotient of the floating-point logarithms of [t] and of [10], which is
      not always the float [math.log10] returns (the rejection of the other
      integers is in [math_log] below);
    - [float_mod x y] is [x % y], for a divisor that is not zero;
    - [float_pow x y] is [x ** y], [None] when the result is out of range,
      where Python raises [OverflowError];
    - [math_sin], [math_tan] and [math_log10] are the functions of that name
      and [math_floor x] is [int(math.floor(x))], on finite arguments;
    - [round_ndigits x n] is [round(x, n)]. *)
Class MathLib : Type := {
  log_int : Z -> float;
  float_mod : float -> float -> float;
  float_pow : float -> float -> option float;
  math_sin : float -> float;
  math_tan : float -> float;
  math_log10 : float -> float;
  math_floor : float -> Z;
  round_ndigits : float -> Z -> float
}.

Section Derivation.
Context {M : MathLib}.

(** [math.log(t, 10)] on an integer: Python rejects a non-positive argument
    before any floating-point work. *)
Definition math_log (t : Z) : pyres float :=
  if t <=? 0 then Raise domain_error else Ok (log_int t).

(** [x ** y] on floats. *)
Definition pow (x y : float) : pyres float :=
  match float_pow x y with
  | Some r => Ok r
  | None => Raise range_error
  end.

(** ** [round_sig] *)

Definition round_sig (x : float) (sig : Z) : float :=
  if (x =? 0)%float then 0%float
  else
    let order := math_floor (math_log10 (abs x)) in
    let decimals := sig - order - 1 in
    round_ndigits x decimals.

(** ** [tokenize] *)

(** The body of the [try] block up to [temp], at position [i] with
    [a = l1[i]] and [b = l2[i]]. *)
Definition position (i : nat) (a b seed : Z) : pyres float :=
  let tval := a * seed ^ b in
  let! val := (if tval =? 0 then Ok 0%float
               else let! lg := math_log tval in
                    pow 10%float (float_mod lg 1%float)) in
  Ok (if Nat.even i then math_sin val else math_tan val).

(** The [for] loop from index [i] on, [l1] and [l2] being the digits still to
    be visited and [result] the running sum.  The loop is entered with lists
    of equal length, so walking them together visits [l1[i]] and [l2[i]] for
    every [i] of [range(len(l1))].  Only [OverflowError] is caught. *)
Fixpoint tokenize_loop (i : nat) (l1 l2 : list Z) (seed : Z) (result : float)
  : pyres float :=
  match l1, l2 with
  | a :: l1', b :: l2' =>
      match position i a b seed with
      | Ok temp => tokenize_loop (S i) l1' l2' seed (result + temp)%float
      | Raise (OverflowError _) => tokenize_loop (S i) l1' l2' seed (result + 0)%float
      | Raise e => Raise e
      end
  | _, _ => Ok result
  end.

(** [key2] is [None] when the caller passes the challenge of a record that
    never had one. *)
Definition tokenize (key1 : Z) (key2 : option Z) (seed : Z) : pyres float :=
  let! l1 := comprehension int (list_ascii_of_string (str (Some key1))) in
  let! l2 := comprehension int (list_ascii_of_string (str key2)) in
  if negb (length l1 =? length l2)%nat then Raise length_mismatch
  else
    let! result := tokenize_loop 0 l1 l2 seed 0%float in
    Ok (round_sig result KEY_LENGTH).

End Derivation.

(** ** [ZKUser] *)

Module ZKUser.

Record t : Type := mk {
  name : string;
  key1 : Z;
  key2 : option Z;
  stime : option Z;
  locked : bool
}.

Definition __init__ (name : string) (key1 : Z) : t :=
  mk name key1 None None false.

(** [drawn] is what [random.randint(10**(KEY_LENGTH - 1), 10**KEY_LENGTH - 1)]
    returned and [now] the reading of the clock in [time_seed()]. *)
Definition get_challenge_key (self : t) (drawn : Z) (now : datetime) : Z * t :=
  let self := mk (name self) (key1 self) (Some drawn) (stime self) (locked self) in
  let self := mk (name self) (key1 self) (key2 self) (Some (time_seed now 0)) (locked self) in
  (drawn, self).

(** [self.stime == time_seed()]: [None] equals no integer. *)
Definition stime_eq (stime : option Z) (seed : Z) : bool :=
  match stime with
  | Some w => w =? seed
  | None => false
  end.

Section Verify.
Context {M : MathLib}.

(** [verify(token)].  [now1] is the reading of the clock in the guard (taken
    only when [locked] holds) and [now2] the one passed to [tokenize].  The
    result is what the call returns or raises, the record after the call and
    the values handed to [print]. *)
Definition verify (self : t) (token : float) (now1 now2 : datetime)
  : pyres bool * t * list float :=
  if locked self && stime_eq (stime self) (time_seed now1 0) then
    (Ok false, self, [])
  else
    let self := mk (name self) (key1 self) (key2 self) (stime self) true in
    match tokenize (key1 self) (key2 self) (time_seed now2 0) with
    | Ok proof => (Ok (proof =? token)%float, self, [proof])
    | Raise e => (Raise e, self, [])
    end.

End Verify.
End ZKUser.

(** ** [ZKServer] *)

Module ZKServer.

Record t : Type := mk { users : gmap string ZKUser.t }.

Definition __init__ : t := mk ∅.

Definition register_user (self : t) (username : string) (drawn : Z) : Z * t :=
  match users self !! username with
  | Some user => (ZKUser.key1 user, self)
  | None =>
      let key1 := drawn in
      (key1, mk (<[username := ZKUser.__init__ username key1]> (users self)))
  end.

(** [None] is Python's [None]. The record found in [users] is updated in
    place, so the map holds the updated record afterwards. *)
Definition issue_challenge (self : t) (username : string) (drawn : Z) (now : datetime)
  : option Z * t :=
  match users self !! username with
  | None => (None, self)
  | Some user =>
      let '(key2, user) := ZKUser.get_challenge_key user drawn now in
      (Some key2, mk (<[username := user]> (users self)))
  end.

Section Verify.
Context {M : MathLib}.

Definition verify_token (self : t) (username : string) (token : float)
  (now1 now2 : datetime) : pyres bool * t * list float :=
  match users self !! username with
  | None => (Ok false, self, [])
  | Some user =>
      let '(r, user, out) := ZKUser.verify user token now1 now2 in
      (r, mk (<[username := user]> (users self)), out)
  end.

End Verify.
End ZKServer.

(** ** The routes [/register], [/challenge] and [/verify]

    [zk_server] is the module-level server object; each route returns the
    response and the server afterwards. *)

Inductive response : Type :=
| Registered (username : string) (key1 : Z)
| Challenge (username : string) (key2 : Z) (seed : Z)
| Authenticated
| HTTPException (status_code : Z) (detail : string)
| Uncaught (e : exn).

Definition register_user (zk_server : ZKServer.t) (username : string) (drawn : Z)
  : response * ZKServer.t :=
  let '(key1, zk_server) := ZKServer.register_user zk_server username drawn in
  (Registered username key1, zk_server).

(** [now'] is the second reading of the clock, for the [seed] of the reply. *)
Definition issue_challenge (zk_server : ZKServer.t) (username : string) (drawn : Z)
  (now now' : datetime) : response * ZKServer.t :=
  let '(key2, zk_server) := ZKServer.issue_challenge zk_server username drawn now in
  match key2 with
  | None => (HTTPException 404 "User not found", zk_server)
  | Some key2 => (Challenge username key2 (time_seed now' 0), zk_server)
  end.

Section Routes.
Context {M : MathLib}.

Definition verify_token (zk_server : ZKServer.t) (username : string) (token : float)
  (now1 now2 : datetime) : response * ZKServer.t * list float :=
  let '(success, zk_server, out) :=
    ZKServer.verify_token zk_server username token now1 now2 in
  match success with
  | Raise e => (Uncaught e, zk_server, out)
  | Ok false => (HTTPException 401 "Authentication failed", zk_server, out)
  | Ok true => (Authenticated, zk_server, out)
  end.

(** A call of one of the three server methods, with the readings of the clock
    and of the random generator it consumes. *)
Inductive call : Type :=
| Register (username : string) (drawn : Z)
| IssueChallenge (username : string) (drawn : Z) (now : datetime)
| VerifyToken (username : string) (token : float) (now1 now2 : datetime).

Definition step (s : ZKServer.t) (c : call) : ZKServer.t :=
  match c with
  | Register username drawn => snd (ZKServer.register_user s username drawn)
  | IssueChallenge username drawn now => snd (ZKServer.issue_challenge s username drawn now)
  | VerifyToken username token now1 now2 =>
      snd (fst (ZKServer.verify_token s username token now1 now2))
  end.

Definition run (s : ZKServer.t) (calls : list call) : ZKServer.t :=
  fold_left step calls s.

End Routes.

(** ** The notions of the specification *)

(** The decimal digit sequence of a key: most significant digit first, no
    sign, no padding. *)
Fixpoint uint_digits (u : Decimal.uint) : list Z :=
  match u with
  | Decimal.Nil => []
  | Decimal.D0 u => 0 :: uint_digits u
  | Decimal.D1 u => 1 :: uint_digits u
  | Decimal.D2 u => 2 :: uint_digits u
  | Decimal.D3 u => 3 :: uint_digits u
  | Decimal.D4 u => 4 :: uint_digits u
  | Decimal.D5 u => 5 :: uint_digits u
  | Decimal.D6 u => 6 :: uint_digits u
  | Decimal.D7 u => 7 :: uint_digits u
  | Decimal.D8 u => 8 :: uint_digits u
  | Decimal.D9 u => 9 :: uint_digits u
  end.

Definition decimal_digits (key : Z) : list Z :=
  match Z.to_int key with
  | Decimal.Pos u | Decimal.Neg u => uint_digits u
  end.

Definition digit_length (key : Z) : nat := length (decimal_digits key).

(** The number a digit sequence denotes. *)
Definition digits_value (l : list Z) : Z := fold_left (fun n d => 10 * n + d) l 0.

(** Two readings of the clock in the same UTC hour of the same UTC day. *)
Definition same_utc_hour (d1 d2 : datetime) : Prop :=
  year d1 = year d2 /\ month d1 = month d2 /\ day d1 = day d2 /\ hour d1 = hour d2.

Definition is_leap (y : Z) : bool :=
  ((y mod 4 =? 0) && negb (y mod 100 =? 0)) || (y mod 400 =? 0).

Definition days_in_month (y m : Z) : Z :=
  if m =? 2 then (if is_leap y then 29 else 28)
  else if (m =? 4) || (m =? 6) || (m =? 9) || (m =? 11) then 30
  else 31.

(** The values [datetime.now] can return. *)
Definition valid_datetime (d : datetime) : Prop :=
  1 <= year d <= 9999 /\ 1 <= month d <= 12 /\
  1 <= day d <= days_in_month (year d) (month d) /\
  0 <= hour d <= 23 /\ 0 <= minute d <= 59 /\ 0 <= second d <= 59.

(** The range of [random.randint(10**(KEY_LENGTH - 1), 10**KEY_LENGTH - 1)]. *)
Definition key_range (drawn : Z) : Prop :=
  10 ^ (KEY_LENGTH - 1) <= drawn <= 10 ^ KEY_LENGTH - 1.

(** The condition under which [verify] rejects without deriving the proof:
    the record is locked and its stored window is the one read at [now1]. *)
Definition guard (u : ZKUser.t) (now1 : datetime) : bool :=
  ZKUser.locked u && ZKUser.stime_eq (ZKUser.stime u) (time_seed now1 0).

(** A record has a stored window only once it has a challenge. *)
Definition window_needs_challenge (s : ZKServer.t) : Prop :=
  forall username u,
    ZKServer.users s !! username = Some u ->
    ZKUser.key2 u = None -> ZKUser.stime u = None.

(** A call whose draws are in the range of [random.randint] and whose
    readings of the clock are values [datetime.now] can return. *)
Definition valid_call (c : call) : Prop :=
  match c with
  | Register _ drawn => key_range drawn
  | IssueChallenge _ drawn now => key_range drawn /\ valid_datetime now
  | VerifyToken _ _ now1 now2 => valid_datetime now1 /\ valid_datetime now2
  end.

(** Every stored secret and challenge was drawn in that range. *)
Definition keys_in_range (s : ZKServer.t) : Prop :=
  forall username u,
    ZKServer.users s !! username = Some u ->
    key_range (ZKUser.key1 u) /\
    forall challenge, ZKUser.key2 u = Some challenge -> key_range challenge.

Section Specification.
Context {M : MathLib}.

(** The derivation in closed form, with the logarithm the code calls: per
    digit position, [t = a * seed^b]; [v = 0] when [t = 0], else
    [v = 10 ** (math.log(t, 10) % 1)], [math.log(t, 10)] being [log_int]
    (of the magnitude of [t]: the closed form is used where [t >= 0]);
    [sin v] at an even position and [tan v] at an odd one; a position whose
    power overflows contributes [0]; the sum is rounded by [round_sig].  The
    same sum with the logarithm [log10(t)] of the specification is
    [derive_claim] below. *)
Definition spec_v (a b seed : Z) : option float :=
  let t := a * seed ^ b in
  if t =? 0 then Some 0%float
  else float_pow 10%float (float_mod (log_int (Z.abs t)) 1%float).

Definition spec_term (i : nat) (a b seed : Z) : float :=
  match spec_v a b seed with
  | Some v => if Nat.even i then math_sin v else math_tan v
  | None => 0%float
  end.

Fixpoint spec_sum (i : nat) (l1 l2 : list Z) (seed : Z) (acc : float) : float :=
  match l1, l2 with
  | a :: l1', b :: l2' => spec_sum (S i) l1' l2' seed (acc + spec_term i a b seed)%float
  | _, _ => acc
  end.

Definition derive_spec (secretKey challengeKey seed : Z) : float :=
  round_sig
    (spec_sum 0 (decimal_digits secretKey) (decimal_digits challengeKey) seed 0%float)
    KEY_LENGTH.

(** Whether every position has [t >= 0]. *)
Fixpoint no_negative_term (l1 l2 : list Z) (seed : Z) : bool :=
  match l1, l2 with
  | a :: l1', b :: l2' => (0 <=? a * seed ^ b) && no_negative_term l1' l2' seed
  | _, _ => true
  end.

End Specification.

(** ** A math library to run the definitions with

    Coarse approximations over binary64, enough to evaluate the code on
    concrete inputs.  No general statement below depends on them. *)

Module Sample.

Definition of_Z (z : Z) : float := SF2Prim (binary_normalize 53 1024 z 0 false).

Definition floor (x : float) : Z :=
  match Prim2SF x with
  | S754_finite s m e =>
      let v := if s then Z.neg m else Z.pos m in
      if 0 <=? e then v * 2 ^ e else v / 2 ^ (- e)
  | _ => 0
  end.

(** Piecewise linear between consecutive powers of ten. *)
Definition log_int (t : Z) : float :=
  let k := Z.of_nat (digit_length t) - 1 in
  (of_Z k + (of_Z t / of_Z (10 ^ k) - 1) / 9)%float.

Definition float_mod (x y : float) : float :=
  (x - y * of_Z (floor (x / y)))%float.

Definition float_pow (x y : float) : option float :=
  let r := (1 + (x - 1) * y)%float in
  if is_infinity r || is_nan r then None else Some r.

Definition math_sin (x : float) : float :=
  (x - x * x * x / 6 + x * x * x * x * x / 120)%float.

Definition math_cos (x : float) : float :=
  (1 - x * x / 2 + x * x * x * x / 24)%float.

Definition math_tan (x : float) : float := (math_sin x / math_cos x)%float.

Definition math_log10 (x : float) : float :=
  if (x <? 1)%float then (- log_int (floor (1 / x)))%float else log_int (floor x).

Definition round_ndigits (x : float) (n : Z) : float :=
  let p := of_Z (10 ^ Z.abs n) in
  if 0 <=? n then (of_Z (floor (x * p + 0.5)) / p)%float
  else (of_Z (floor (x / p + 0.5)) * p)%float.

Definition lib : MathLib :=
  Build_MathLib log_int float_mod float_pow math_sin math_tan math_log10 floor
    round_ndigits.

(** 5 March 2025, 12:30:00 UTC, and the same instant a month earlier and an
    hour later. *)
Definition noon : datetime := mkdatetime 2025 3 5 12 30 0.
Definition month_before : datetime := mkdatetime 2025 2 5 12 30 0.
Definition hour_later : datetime := mkdatetime 2025 3 5 13 30 0.

(** The server after alice registered (key 1234), and after she was then
    issued the challenge 5678 at [noon]. *)
Definition registered : ZKServer.t :=
  snd (ZKServer.register_user ZKServer.__init__ "alice" 1234).

Definition challenged : ZKServer.t :=
  snd (ZKServer.issue_challenge registered "alice" 5678 noon).

Definition alice_registered : ZKUser.t := ZKUser.mk "alice" 1234 None None false.
Definition alice_challenged : ZKUser.t :=
  ZKUser.mk "alice" 1234 (Some 5678) (Some 512) false.
Definition alice_locked : ZKUser.t :=
  ZKUser.mk "alice" 1234 (Some 5678) (Some 512) true.

(** The proof alice computes at [noon]. *)
Definition alice_proof : float :=
  match @tokenize lib 1234 (Some 5678) (time_seed noon 0) with
  | Ok p => p
  | Raise _ => nan
  end.

(** The two calls that lead to [challenged]. *)
Definition session : list call :=
  [Register "alice" 1234; IssueChallenge "alice" 5678 noon].

(** The server after alice submitted that proof at [noon]. *)
Definition verified_once : ZKServer.t :=
  snd (fst (@ZKServer.verify_token lib challenged "alice" alice_proof noon noon)).

End Sample.

(** ** The route [/calculate-tokenized]

    The three form fields arrive as strings and go through [int].  Which
    strings the interpreter reads as integers (blanks, sign, underscores,
    digits of any script) is left to it: [parse_int s] is the integer
    [int(s)] returns, [None] when it raises [ValueError], and
    [parse_error s] is the text of that error. *)

Class Builtins : Type := {
  parse_int : string -> option Z;
  parse_error : string -> string
}.

(** [int(s)] on a string. *)
Definition int_of_str `{Builtins} (s : string) : pyres Z :=
  match parse_int s with
  | Some z => Ok z
  | None => Raise (ValueError (parse_error s))
  end.

(** How the [try] block of the route ends: with the dictionary
    [{"error": str(e)}] that the [except ValueError] clause returns, with a
    token that line 156 hands to [templates.TemplateResponse] for the page
    [tokenized.html] ([CalcPage]; what that call does is the framework's and
    is not modelled), or with an exception the clause does not catch. *)
Inductive calc_response : Type :=
| CalcError (error : string)
| CalcPage (result : float)
| CalcUncaught (e : exn).

Definition calculate_tokenized `{Builtins} `{MathLib} (key1 key2 seed : string)
  : calc_response :=
  match (let! k1 := int_of_str key1 in
         let! k2 := int_of_str key2 in
         let! s := int_of_str seed in
         tokenize k1 (Some k2) s) with
  | Ok token => CalcPage token
  | Raise (ValueError msg) => CalcError msg
  | Raise e => CalcUncaught e
  end.

(** The identity a call is about. *)
Definition target (c : call) : string :=
  match c with
  | Register username _ => username
  | IssueChallenge username _ _ => username
  | VerifyToken username _ _ _ => username
  end.

(** A call that is not a challenge issuance for [username]. *)
Definition no_challenge_for (username : string) (c : call) : Prop :=
  match c with
  | IssueChallenge n _ _ => n <> username
  | _ => True
  end.

(** The two texts [int] produces inside [tokenize]. *)
Definition invalid_minus : exn := ValueError "invalid literal for int() with base 10: '-'".
Definition invalid_N : exn := ValueError "invalid literal for int() with base 10: 'N'".

(** A reader of plain decimal numerals, to run the route with. *)
Module SampleForm.

Definition parse_int (s : string) : option Z :=
  match NilEmpty.int_of_string s with
  | Some d => Some (Z.of_int d)
  | None => None
  end.

Definition parse_error (s : string) : string :=
  "invalid literal for int() with base 10: '" ++ s ++ "'".

Definition builtins : Builtins := Build_Builtins parse_int parse_error.

End SampleForm.

(** ** Exact values of floats, and [round]

    A finite float is a rational number; [round(x, ndigits)] and the number
    of significant digits of a result are defined on that number. *)

(** The conversion of an integer to the nearest float (ties to even). *)
Definition float_of_int (z : Z) : float := SF2Prim (binary_normalize 53 1024 z 0 false).

(** The number a float denotes; [0] for an infinity or a NaN. *)
Definition float_Q (x : float) : Q :=
  match Prim2SF x with
  | S754_finite s m e => (inject_Z (if s then Z.neg m else Z.pos m) * Qpower 2 e)%Q
  | _ => 0%Q
  end.

(** The float nearest to a positive rational (ties to even, an infinity past
    the largest float); [+0.0] for the others.  The rational is put in lowest
    terms first, so that equal rationals give the same float. *)
Definition nearest_float (q : Q) : float :=
  let q' := Qred q in
  match Qnum q' with
  | Z.pos n => SF2Prim (SFdiv 53 1024 (S754_finite false n 0) (S754_finite false (Qden q') 0))
  | _ => 0%float
  end.

(** The float that the decimal numeral [m * 10^e] denotes, with its sign
    (also on a zero). *)
Definition decimal_float (negative : bool) (m e : Z) : float :=
  let r := nearest_float (inject_Z m * Qpower 10 e)%Q in
  if negative then (- r)%float else r.

Definition round_half_even (q : Q) : Z :=
  let f := Qfloor q in
  match Qcompare (q - inject_Z f) (1 # 2) with
  | Lt => f
  | Gt => f + 1
  | Eq => if Z.even f then f else f + 1
  end.

(** [round(x, ndigits)] on a float, as the interpreter computes it: an
    infinity, a NaN and a zero are returned as they are; more than 323
    places keep [x], fewer than -308 give a zero of the sign of [x];
    otherwise the exact value of [x] is rounded to [ndigits] decimal places,
    half to even, the numeral obtained is converted to the nearest float, and
    a result past the largest float raises [OverflowError]. *)
Definition py_round (x : float) (ndigits : Z) : pyres float :=
  if negb (is_finite x) || (x =? 0)%float then Ok x
  else if 323 <? ndigits then Ok x
  else if ndigits <? -308 then Ok (0 * x)%float
  else
    let q := round_half_even (Qabs (float_Q x) * Qpower 10 ndigits)%Q in
    let r := decimal_float (x <? 0)%float q (- ndigits) in
    if is_infinity r then Raise (OverflowError "rounded value too large to represent")
    else Ok r.



(** A key whose numeral the interpreter converts: [str] refuses integers of
    more than 4300 digits unless the cap is lifted. *)
Definition within_cap (key : Z) : Prop := Z.abs key < 10 ^ 4300.

Section Claimed.
Context {M : MathLib}.

(** Lines 38 to 53 of [tokenize]: the two comprehensions, the length check
    and the loop, up to the sum that line 54 hands to [round_sig]. *)
Definition tokenize_sum (key1 : Z) (key2 : option Z) (seed : Z) : pyres float :=
  let! l1 := comprehension int (list_ascii_of_string (str (Some key1))) in
  let! l2 := comprehension int (list_ascii_of_string (str key2)) in
  if negb (length l1 =? length l2)%nat then Raise length_mismatch
  else tokenize_loop 0 l1 l2 seed 0%float.

(** The derivation in the words of the specification and of C3, with the
    base-10 logarithm [log10(t)] of the magnitude of [t] where the code calls
    [math.log(t, 10)]: [v = 0] when [t = 0], else [v = 10 ^ (log10 t mod 1)];
    [sin v] at an even position and [tan v] at an odd one; a position whose
    power overflows contributes [0]; the sum is rounded by [round_sig]. *)
Definition claim_v (a b seed : Z) : option float :=
  let t := a * seed ^ b in
  if t =? 0 then Some 0%float
  else float_pow 10%float (float_mod (math_log10 (float_of_int (Z.abs t))) 1%float).

Definition claim_term (i : nat) (a b seed : Z) : float :=
  match claim_v a b seed with
  | Some v => if Nat.even i then math_sin v else math_tan v
  | None => 0%float
  end.

Fixpoint claim_sum (i : nat) (l1 l2 : list Z) (seed : Z) (acc : float) : float :=
  match l1, l2 with
  | a :: l1', b :: l2' => claim_sum (S i) l1' l2' seed (acc + claim_term i a b seed)%float
  | _, _ => acc
  end.

Definition derive_claim (secretKey challengeKey seed : Z) : float :=
  round_sig
    (claim_sum 0 (decimal_digits secretKey) (decimal_digits challengeKey) seed 0%float)
    KEY_LENGTH.

(** At every position with [t <> 0], the quotient [math.log(t, 10)] of the
    code and the logarithm [log10(t)] of the claim have the same fractional
    part. *)
Fixpoint logs_agree (l1 l2 : list Z) (seed : Z) : Prop :=
  match l1, l2 with
  | a :: l1', b :: l2' =>
      let t := a * seed ^ b in
      (t <> 0 ->
       float_mod (log_int t) 1%float =
         float_mod (math_log10 (float_of_int (Z.abs t))) 1%float) /\
      logs_agree l1' l2' seed
  | _, _ => True
  end.

End Claimed.

(** ** The platform's values

    The binary64 values the interpreter's [math] functions return on a
    machine with IEEE-754 arithmetic, at the arguments the runs of
    [tokenize(111, 111, 1)] and [tokenize(1, 3, 10)] pass, and the exact
    operations ([%], [math.floor], [round]) computed.  An argument that is
    not listed gives NaN, so that no run goes through a value that is not
    recorded here. *)

Module Platform.

(** [math.log(t)], the natural logarithm of a positive integer. *)
Definition ln (t : Z) : float :=
  if t =? 1 then 0%float
  else if t =? 10 then 0x1.26bb1bbb55516p+1%float
  else if t =? 1000 then 0x1.ba18a998fffa0p+2%float
  else nan.

(** [math.log(t, 10)] divides the logarithm of [t] by that of [10]. *)
Definition log_int (t : Z) : float := (ln t / ln 10)%float.

(** [x % y] for finite [x] and [y] with [y] not zero: the exact remainder
    of the truncated division, moved to the sign of [y]. *)
Definition float_mod (x y : float) : float :=
  let qx := float_Q x in
  let qy := float_Q y in
  let d := (qx / qy)%Q in
  let n := if Qle_bool 0 d then Qfloor d else Qceiling d in
  let r := (qx - inject_Z n * qy)%Q in
  let m := if Qle_bool 0 r then nearest_float r else (- nearest_float (- r))%float in
  if (m =? 0)%float then (if (y <? 0)%float then (-0)%float else 0%float)
  else if xorb (y <? 0)%float (m <? 0)%float then (m + y)%float
  else m.

Definition float_pow (x y : float) : option float :=
  if (x =? 10)%float then
    if (y =? 0)%float then Some 1%float
    else if (y =? 0x1.ffffffffffffcp-1)%float then Some 0x1.3fffffffffffap+3%float
    else Some nan
  else Some nan.

Definition math_sin (x : float) : float :=
  if (x =? 0)%float then x
  else if (x =? 1)%float then 0x1.aed548f090ceep-1%float
  else if (x =? 0x1.3fffffffffffap+3)%float then (-0x1.1689ef5f34f02p-1)%float
  else nan.

Definition math_tan (x : float) : float :=
  if (x =? 0)%float then x
  else if (x =? 1)%float then 0x1.8eb245cbee3a6p+0%float
  else nan.

Definition math_log10 (x : float) : float :=
  if (x =? 1)%float then 0%float
  else if (x =? 1000)%float then 3%float
  else if (x =? 0x1.9ec3c75e3f84ap+1)%float then 0x1.056c4c8eec123p-1%float
  else if (x =? 0x1.1689ef5f34f02p-1)%float then (-0x1.0ebabe7ac2759p-2)%float
  else if (x =? 0x1.aed548f090ceep-1)%float then (-0x1.330a272d14a58p-4)%float
  else nan.

(** [int(math.floor(x))] on a finite float. *)
Definition math_floor (x : float) : Z := Qfloor (float_Q x).

Definition round_ndigits (x : float) (n : Z) : float :=
  match py_round x n with
  | Ok r => r
  | Raise _ => nan
  end.

Definition lib : MathLib :=
  Build_MathLib log_int float_mod float_pow math_sin math_tan math_log10 math_floor
    round_ndigits.

End Platform.

(** * Properties *)

(** ** The time window *)

Lemma time_seed_offset now offset : time_seed now offset = time_seed now 0 + offset.
Proof. unfold time_seed. lia. Qed.

Lemma days_in_month_le y m : days_in_month y m <= 31.
Proof.
  unfold days_in_month.
  repeat match goal with |- context [if ?b then _ else _] => destruct b end; lia.
Qed.

Lemma valid_datetime_bounds d :
  valid_datetime d -> 1 <= day d <= 31 /\ 0 <= hour d <= 23.
Proof.
  intros (_ & _ & [Hd1 Hd2] & Hh & _).
  pose proof (days_in_month_le (year d) (month d)). lia.
Qed.

(** The window of a valid reading is between 100 and 3123. *)
Lemma time_seed_range d : valid_datetime d -> 100 <= time_seed d 0 <= 3123.
Proof.
  intros H. apply valid_datetime_bounds in H. unfold time_seed. lia.
Qed.

Lemma noon_valid : valid_datetime Sample.noon.
Proof. unfold valid_datetime; simpl; repeat split; vm_compute; congruence. Qed.

Lemma hour_later_valid : valid_datetime Sample.hour_later.
Proof. unfold valid_datetime; simpl; repeat split; vm_compute; congruence. Qed.

Lemma month_before_valid : valid_datetime Sample.month_before.
Proof. unfold valid_datetime; simpl; repeat split; vm_compute; congruence. Qed.

(** C4, as stated, fails: 5 February and 5 March 2025, both at 12:30 UTC, are
    two valid readings of the clock a month apart, yet [time_seed] returns
    512 for both. *)
Lemma time_seed_equal_across_months :
  valid_datetime Sample.month_before /\ valid_datetime Sample.noon /\
  time_seed Sample.month_before 0 = time_seed Sample.noon 0 /\
  ~ same_utc_hour Sample.month_before Sample.noon.
Proof.
  split; [exact month_before_valid|]. split; [exact noon_valid|].
  split; [reflexivity|].
  intros (_ & Hm & _). vm_compute in Hm. congruence.
Qed.

(** C4, amended: with equal offsets, two readings of the clock give the same
    window exactly when they agree on the day of the month and on the hour of
    the day; readings within the same UTC hour of the same UTC day do, and so
    do readings in different months or years at the same day number and
    hour. *)
Theorem time_seed_eq_iff (d1 d2 : datetime) (offset : Z) :
  valid_datetime d1 -> valid_datetime d2 ->
  (time_seed d1 offset = time_seed d2 offset <-> day d1 = day d2 /\ hour d1 = hour d2) /\
  (same_utc_hour d1 d2 -> time_seed d1 offset = time_seed d2 offset).
Proof.
  intros H1 H2.
  apply valid_datetime_bounds in H1. apply valid_datetime_bounds in H2.
  unfold time_seed, same_utc_hour. split; [split|]; lia.
Qed.

(** The amended C4 at 12:30 and 13:30 of 5 March 2025, offset 7. *)
Lemma time_seed_eq_iff_witness :
  valid_datetime Sample.noon /\ valid_datetime Sample.hour_later /\
  (time_seed Sample.noon 7 = time_seed Sample.hour_later 7 <->
   day Sample.noon = day Sample.hour_later /\ hour Sample.noon = hour Sample.hour_later) /\
  (same_utc_hour Sample.noon Sample.hour_later ->
   time_seed Sample.noon 7 = time_seed Sample.hour_later 7).
Proof.
  split; [exact noon_valid|]. split; [exact hour_later_valid|].
  exact (time_seed_eq_iff Sample.noon Sample.hour_later 7 noon_valid hour_later_valid).
Defined.

(** ** Registration *)

Lemma server_eta (s : ZKServer.t) : ZKServer.mk (ZKServer.users s) = s.
Proof. destruct s; reflexivity. Qed.

Lemma server_insert_id (s : ZKServer.t) (username : string) (u : ZKUser.t) :
  ZKServer.users s !! username = Some u ->
  ZKServer.mk (<[username := u]> (ZKServer.users s)) = s.
Proof. intros H. rewrite insert_id by exact H. apply server_eta. Qed.

Lemma register_existing (s : ZKServer.t) (username : string) (u : ZKUser.t) (drawn : Z) :
  ZKServer.users s !! username = Some u ->
  ZKServer.register_user s username drawn = (ZKUser.key1 u, s).
Proof. intros H. unfold ZKServer.register_user. rewrite H. reflexivity. Qed.

Lemma register_new (s : ZKServer.t) (username : string) (drawn : Z) :
  ZKServer.users s !! username = None ->
  ZKServer.register_user s username drawn =
    (drawn, ZKServer.mk (<[username := ZKUser.__init__ username drawn]> (ZKServer.users s))).
Proof. intros H. unfold ZKServer.register_user. rewrite H. reflexivity. Qed.

(** After [register_user], the identity has a record whose secret is the
    value returned. *)
Lemma register_registers (s : ZKServer.t) (username : string) (drawn : Z) :
  exists u,
    ZKServer.users (snd (ZKServer.register_user s username drawn)) !! username = Some u /\
    ZKUser.key1 u = fst (ZKServer.register_user s username drawn).
Proof.
  destruct (ZKServer.users s !! username) as [u|] eqn:E.
  - rewrite (register_existing _ _ _ _ E). exists u. auto.
  - rewrite (register_new _ _ _ E). simpl. rewrite lookup_insert_eq.
    eexists. split; [reflexivity|reflexivity].
Qed.

(** C8: [register_user] is idempotent.  Two consecutive calls for one identity
    return the same secret, whatever the random generator draws the second
    time, and the second call leaves the server as it was; a call for an
    identity that already has a record returns that record's [key1] and
    changes nothing, while a call for a new identity stores a record with the
    drawn secret, no challenge, no window and [locked = False]. *)
Theorem register_user_idempotent (s : ZKServer.t) (username : string) (drawn1 drawn2 : Z) :
  let first := ZKServer.register_user s username drawn1 in
  let second := ZKServer.register_user (snd first) username drawn2 in
  fst second = fst first /\ snd second = snd first /\
  match ZKServer.users s !! username with
  | Some u => first = (ZKUser.key1 u, s)
  | None =>
      fst first = drawn1 /\
      ZKServer.users (snd first) !! username = Some (ZKUser.mk username drawn1 None None false)
  end.
Proof.
  cbv zeta.
  destruct (register_registers s username drawn1) as (u & Hu & Hk).
  rewrite (register_existing _ _ _ drawn2 Hu). simpl.
  split; [exact Hk|]. split; [reflexivity|].
  destruct (ZKServer.users s !! username) as [u0|] eqn:E.
  - apply register_existing; exact E.
  - rewrite (register_new _ _ _ E). simpl. rewrite lookup_insert_eq. auto.
Qed.

Section ServerProperties.
Context {M : MathLib}.

(** ** What one call changes in a record *)

Lemma get_challenge_key_fields (u : ZKUser.t) (drawn : Z) (now : datetime) :
  ZKUser.get_challenge_key u drawn now =
    (drawn, ZKUser.mk (ZKUser.name u) (ZKUser.key1 u) (Some drawn)
                      (Some (time_seed now 0)) (ZKUser.locked u)).
Proof. reflexivity. Qed.

Lemma verify_guarded (u : ZKUser.t) (token : float) (now1 now2 : datetime) :
  guard u now1 = true ->
  ZKUser.verify u token now1 now2 = (Ok false, u, []).
Proof. unfold guard, ZKUser.verify. intros ->. reflexivity. Qed.

Lemma verify_unguarded (u : ZKUser.t) (token : float) (now1 now2 : datetime) :
  guard u now1 = false ->
  ZKUser.verify u token now1 now2 =
    let u' := ZKUser.mk (ZKUser.name u) (ZKUser.key1 u) (ZKUser.key2 u) (ZKUser.stime u) true in
    match tokenize (ZKUser.key1 u) (ZKUser.key2 u) (time_seed now2 0) with
    | Ok proof => (Ok (proof =? token)%float, u', [proof])
    | Raise e => (Raise e, u', [])
    end.
Proof. unfold guard, ZKUser.verify. intros ->. reflexivity. Qed.

(** [verify] leaves the record locked and touches no other field. *)
Lemma verify_record (u : ZKUser.t) (token : float) (now1 now2 : datetime) :
  snd (fst (ZKUser.verify u token now1 now2)) =
    ZKUser.mk (ZKUser.name u) (ZKUser.key1 u) (ZKUser.key2 u) (ZKUser.stime u) true.
Proof.
  destruct (guard u now1) eqn:G.
  - rewrite (verify_guarded _ _ _ _ G). simpl.
    unfold guard in G. apply andb_prop in G as [L _].
    destruct u; simpl in *. subst. reflexivity.
  - rewrite (verify_unguarded _ _ _ _ G). cbv zeta.
    destruct (tokenize _ _ _); reflexivity.
Qed.

Lemma verify_token_registered (s : ZKServer.t) (username : string) (u : ZKUser.t)
  (token : float) (now1 now2 : datetime) :
  ZKServer.users s !! username = Some u ->
  ZKServer.verify_token s username token now1 now2 =
    (fst (fst (ZKUser.verify u token now1 now2)),
     ZKServer.mk (<[username := snd (fst (ZKUser.verify u token now1 now2))]> (ZKServer.users s)),
     snd (ZKUser.verify u token now1 now2)).
Proof.
  intros H. unfold ZKServer.verify_token. rewrite H.
  destruct (ZKUser.verify u token now1 now2) as [[r u'] out]. reflexivity.
Qed.

Lemma verify_token_unregistered (s : ZKServer.t) (username : string)
  (token : float) (now1 now2 : datetime) :
  ZKServer.users s !! username = None ->
  ZKServer.verify_token s username token now1 now2 = (Ok false, s, []).
Proof. intros H. unfold ZKServer.verify_token. rewrite H. reflexivity. Qed.

Lemma issue_challenge_registered (s : ZKServer.t) (username : string) (u : ZKUser.t)
  (drawn : Z) (now : datetime) :
  ZKServer.users s !! username = Some u ->
  ZKServer.issue_challenge s username drawn now =
    (Some drawn,
     ZKServer.mk (<[username := ZKUser.mk (ZKUser.name u) (ZKUser.key1 u) (Some drawn)
                                  (Some (time_seed now 0)) (ZKUser.locked u)]>
                    (ZKServer.users s))).
Proof. intros H. unfold ZKServer.issue_challenge. rewrite H. reflexivity. Qed.

Lemma issue_challenge_unregistered (s : ZKServer.t) (username : string)
  (drawn : Z) (now : datetime) :
  ZKServer.users s !! username = None ->
  ZKServer.issue_challenge s username drawn now = (None, s).
Proof. intros H. unfold ZKServer.issue_challenge. rewrite H. reflexivity. Qed.

(** ** Unregistered identities *)

(** C9: for an identity with no record, [ZKServer.issue_challenge] returns
    [None], which the [/challenge] route turns into the 404 error
    [User not found], a reply no registered identity ever gets;
    [ZKServer.verify_token] returns [False] for every submitted value, and the
    [/verify] route answers it with the same 401 [Authentication failed] as
    any verification that returns [False]; neither call prints, creates or
    changes anything on the server. *)
Theorem unknown_identity (s : ZKServer.t) (username : string) :
  ZKServer.users s !! username = None ->
  (forall drawn now now',
      ZKServer.issue_challenge s username drawn now = (None, s) /\
      issue_challenge s username drawn now now' = (HTTPException 404 "User not found", s)) /\
  (forall token now1 now2,
      ZKServer.verify_token s username token now1 now2 = (Ok false, s, []) /\
      verify_token s username token now1 now2 =
        (HTTPException 401 "Authentication failed", s, [])) /\
  (forall s' username' token' now1 now2,
      fst (fst (ZKServer.verify_token s' username' token' now1 now2)) = Ok false ->
      fst (fst (verify_token s' username' token' now1 now2)) =
        HTTPException 401 "Authentication failed") /\
  (forall s' username' drawn now now',
      is_Some (ZKServer.users s' !! username') ->
      fst (ZKServer.issue_challenge s' username' drawn now) = Some drawn /\
      fst (issue_challenge s' username' drawn now now') =
        Challenge username' drawn (time_seed now' 0)).
Proof.
  intros H. repeat split.
  - apply issue_challenge_unregistered; exact H.
  - unfold issue_challenge. rewrite (issue_challenge_unregistered _ _ _ _ H). reflexivity.
  - apply verify_token_unregistered; exact H.
  - unfold verify_token. rewrite (verify_token_unregistered _ _ _ _ _ H). reflexivity.
  - intros s' username' token' now1 now2 Hf. unfold verify_token.
    destruct (ZKServer.verify_token s' username' token' now1 now2) as [[r s1] out].
    simpl in Hf. subst r. reflexivity.
  - match goal with R : is_Some _ |- _ => destruct R as [u Hu] end.
    rewrite (issue_challenge_registered _ _ _ _ _ Hu). reflexivity.
  - match goal with R : is_Some _ |- _ => destruct R as [u Hu] end.
    unfold issue_challenge.
    rewrite (issue_challenge_registered _ _ _ _ _ Hu). reflexivity.
Qed.

(** ** The lock *)

(** What a call does to the record of [username], when there is one. *)
Lemma step_record (s : ZKServer.t) (c : call) (username : string) (u : ZKUser.t) :
  ZKServer.users s !! username = Some u ->
  exists u',
    ZKServer.users (step s c) !! username = Some u' /\
    ZKUser.name u' = ZKUser.name u /\ ZKUser.key1 u' = ZKUser.key1 u /\
    (ZKUser.locked u = true -> ZKUser.locked u' = true).
Proof.
  intros Hu. destruct c as [n d | n d now | n tok now1 now2]; simpl.
  - destruct (ZKServer.users s !! n) as [u0|] eqn:E.
    + rewrite (register_existing _ _ _ _ E). simpl. eauto.
    + rewrite (register_new _ _ _ E). simpl.
      assert (n <> username) by congruence.
      rewrite lookup_insert_ne by assumption. eauto.
  - destruct (ZKServer.users s !! n) as [u0|] eqn:E.
    + rewrite (issue_challenge_registered _ _ _ _ _ E). simpl.
      destruct (decide (n = username)) as [->|Hne].
      * rewrite lookup_insert_eq. assert (u0 = u) by congruence. subst u0.
        eexists. split; [reflexivity|]. simpl. auto.
      * rewrite lookup_insert_ne by assumption. eauto.
    + rewrite (issue_challenge_unregistered _ _ _ _ E). simpl. eauto.
  - destruct (ZKServer.users s !! n) as [u0|] eqn:E.
    + rewrite (verify_token_registered _ _ _ _ _ _ E). simpl.
      destruct (decide (n = username)) as [->|Hne].
      * rewrite lookup_insert_eq. assert (u0 = u) by congruence. subst u0.
        eexists. split; [reflexivity|]. rewrite verify_record. simpl. auto.
      * rewrite lookup_insert_ne by assumption. eauto.
    + rewrite (verify_token_unregistered _ _ _ _ _ E). simpl. eauto.
Qed.

Lemma run_record (calls : list call) (s : ZKServer.t) (username : string) (u : ZKUser.t) :
  ZKServer.users s !! username = Some u ->
  exists u',
    ZKServer.users (run s calls) !! username = Some u' /\
    ZKUser.name u' = ZKUser.name u /\ ZKUser.key1 u' = ZKUser.key1 u /\
    (ZKUser.locked u = true -> ZKUser.locked u' = true).
Proof.
  revert s u. induction calls as [|c calls IH]; intros s u Hu.
  - exists u. simpl. auto.
  - destruct (step_record s c username u Hu) as (u1 & H1 & Hn & Hk & Hl).
    destruct (IH (step s c) u1 H1) as (u2 & H2 & Hn2 & Hk2 & Hl2).
    exists u2. unfold run in *. simpl.
    repeat split; [exact H2|congruence|congruence|auto].
Qed.

(** C7: the lock of a record is never released.  For a registered identity,
    [register_user] returns without touching the server;
    [issue_challenge] replaces the record's [key2] and [stime] and keeps
    [name], [key1] and [locked]; [verify_token] stores the record with
    [locked = True] and every other field as it was, whether it returns
    [True], [False] or raises; once [locked] is true it is true after any
    further sequence of calls to the server, and so it is after any sequence
    of calls that follows a verification attempt. *)
Theorem locked_is_permanent (s : ZKServer.t) (username : string) (u : ZKUser.t) :
  ZKServer.users s !! username = Some u ->
  (forall drawn, snd (ZKServer.register_user s username drawn) = s) /\
  (forall drawn now,
      ZKServer.users (snd (ZKServer.issue_challenge s username drawn now)) !! username =
        Some (ZKUser.mk (ZKUser.name u) (ZKUser.key1 u) (Some drawn)
                        (Some (time_seed now 0)) (ZKUser.locked u))) /\
  (forall token now1 now2,
      ZKServer.users (snd (fst (ZKServer.verify_token s username token now1 now2))) !! username =
        Some (ZKUser.mk (ZKUser.name u) (ZKUser.key1 u) (ZKUser.key2 u) (ZKUser.stime u) true)) /\
  (ZKUser.locked u = true ->
   forall calls, exists u',
     ZKServer.users (run s calls) !! username = Some u' /\ ZKUser.locked u' = true) /\
  (forall token now1 now2 calls, exists u',
     ZKServer.users
       (run (snd (fst (ZKServer.verify_token s username token now1 now2))) calls) !! username =
       Some u' /\ ZKUser.locked u' = true).
Proof.
  intros Hu.
  assert (Hv : forall token now1 now2,
    ZKServer.users (snd (fst (ZKServer.verify_token s username token now1 now2))) !! username =
      Some (ZKUser.mk (ZKUser.name u) (ZKUser.key1 u) (ZKUser.key2 u) (ZKUser.stime u) true)).
  { intros token now1 now2. rewrite (verify_token_registered _ _ _ _ _ _ Hu). simpl.
    rewrite lookup_insert_eq, verify_record. reflexivity. }
  split; [|split; [|split; [exact Hv|split]]].
  - intros drawn. rewrite (register_existing _ _ _ _ Hu). reflexivity.
  - intros drawn now. rewrite (issue_challenge_registered _ _ _ _ _ Hu). simpl.
    apply lookup_insert_eq.
  - intros Hl calls. destruct (run_record calls s username u Hu) as (u' & H1 & _ & _ & H2).
    exists u'. auto.
  - intros token now1 now2 calls.
    destruct (run_record calls _ username _ (Hv token now1 now2)) as (u' & H1 & _ & _ & H2).
    exists u'. auto.
Qed.

(** ** Digits of a key *)

Lemma comprehension_uint (u : Decimal.uint) :
  comprehension int (list_ascii_of_string (NilEmpty.string_of_uint u)) = Ok (uint_digits u).
Proof.
  induction u; simpl; try reflexivity; rewrite IHu; reflexivity.
Qed.

Lemma digits_of_nonneg_key (key : Z) :
  0 <= key ->
  comprehension int (list_ascii_of_string (str (Some key))) = Ok (decimal_digits key).
Proof.
  intros H. unfold str, decimal_digits.
  destruct key as [|p|p]; try lia; [reflexivity|].
  change (NilEmpty.string_of_int (Z.to_int (Z.pos p)))
    with (NilEmpty.string_of_uint (Pos.to_uint p)).
  change (Z.to_int (Z.pos p)) with (Decimal.Pos (Pos.to_uint p)).
  apply comprehension_uint.
Qed.

Lemma digits_of_negative_key (key : Z) :
  key < 0 ->
  comprehension int (list_ascii_of_string (str (Some key))) =
    Raise (ValueError "invalid literal for int() with base 10: '-'").
Proof.
  intros H. destruct key as [|p|p]; try lia. reflexivity.
Qed.

Lemma digits_of_None :
  comprehension int (list_ascii_of_string (str None)) =
    Raise (ValueError "invalid literal for int() with base 10: 'N'").
Proof. reflexivity. Qed.

Lemma of_uint_acc_digits (u : Decimal.uint) :
  forall acc,
    Z.pos (Pos.of_uint_acc u acc) =
      fold_left (fun n d => 10 * n + d) (uint_digits u) (Z.pos acc).
Proof.
  induction u; intros acc; cbn [uint_digits fold_left Pos.of_uint_acc];
    try reflexivity; rewrite IHu; f_equal; lia.
Qed.

Lemma of_uint_digits (u : Decimal.uint) : Z.of_uint u = digits_value (uint_digits u).
Proof.
  unfold Z.of_uint, digits_value.
  induction u; cbn [uint_digits fold_left Pos.of_uint Z.of_N];
    try reflexivity; try exact IHu; apply of_uint_acc_digits.
Qed.

(** [decimal_digits] is the digit sequence of the magnitude of the key. *)
Lemma decimal_digits_value (key : Z) : digits_value (decimal_digits key) = Z.abs key.
Proof.
  unfold decimal_digits. pose proof (DecimalZ.of_to key) as H.
  destruct (Z.to_int key) as [u|u]; simpl in H; rewrite <- of_uint_digits.
  - assert (0 <= Z.of_uint u) by (unfold Z.of_uint; lia). lia.
  - assert (0 <= Z.of_uint u) by (unfold Z.of_uint; lia). lia.
Qed.

Lemma uint_digits_range (u : Decimal.uint) :
  Forall (fun d => 0 <= d <= 9) (uint_digits u).
Proof. induction u; simpl; constructor; (lia || assumption). Qed.

Lemma decimal_digits_range (key : Z) :
  Forall (fun d => 0 <= d <= 9) (decimal_digits key).
Proof. unfold decimal_digits. destruct (Z.to_int key); apply uint_digits_range. Qed.

(** A record without challenge makes [tokenize] raise a [ValueError], from
    [int('-')] when the secret is negative and from [int('N')] otherwise. *)
Lemma tokenize_None (key1 seed : Z) :
  exists msg, tokenize key1 None seed = Raise (ValueError msg).
Proof.
  unfold tokenize. destruct (Z_lt_le_dec key1 0) as [Hn|Hp].
  - rewrite (digits_of_negative_key _ Hn). simpl. eauto.
  - rewrite (digits_of_nonneg_key _ Hp), digits_of_None. simpl. eauto.
Qed.

(** ** Verification *)

(** C2: take an identity whose record holds the window [time_seed now 0].
    After one call of [verify_token] for it, made at any time with any value
    and whatever it returned or raised, a call made in that window returns
    [False] for every submitted value, the true proof included; it prints
    nothing, so [tokenize] was not evaluated, and it leaves the server as the
    first call left it. *)
Theorem second_verify_rejected (s : ZKServer.t) (username : string) (u : ZKUser.t)
  (token1 token2 : float) (earlier1 earlier2 now now' : datetime) :
  ZKServer.users s !! username = Some u ->
  ZKUser.stime u = Some (time_seed now 0) ->
  let s1 := snd (fst (ZKServer.verify_token s username token1 earlier1 earlier2)) in
  ZKServer.verify_token s1 username token2 now now' = (Ok false, s1, []).
Proof.
  intros Hu Hw s1.
  assert (H1 : ZKServer.users s1 !! username =
               Some (ZKUser.mk (ZKUser.name u) (ZKUser.key1 u) (ZKUser.key2 u)
                               (ZKUser.stime u) true)).
  { subst s1. rewrite (verify_token_registered _ _ _ _ _ _ Hu). simpl.
    rewrite lookup_insert_eq, verify_record. reflexivity. }
  rewrite (verify_token_registered _ _ _ _ _ _ H1).
  rewrite verify_guarded.
  - simpl. rewrite (server_insert_id _ _ _ H1). reflexivity.
  - unfold guard. simpl. rewrite Hw. simpl. apply Z.eqb_refl.
Qed.

(** C1, amended: for a registered identity with an issued challenge,
    [verify_token] returns [True] exactly when the guard does not hold (the
    record is not locked, or its stored window is not the current one) and
    [tokenize(key1, key2, time_seed())], evaluated with the window read
    during the call, returns a value equal to the submitted one; the window
    stored with the challenge plays no part in the derivation. *)
Theorem verify_token_succeeds_iff (s : ZKServer.t) (username : string) (u : ZKUser.t)
  (challenge : Z) (token : float) (now1 now2 : datetime) :
  ZKServer.users s !! username = Some u ->
  ZKUser.key2 u = Some challenge ->
  fst (fst (ZKServer.verify_token s username token now1 now2)) = Ok true <->
  guard u now1 = false /\
  exists proof,
    tokenize (ZKUser.key1 u) (Some challenge) (time_seed now2 0) = Ok proof /\
    (proof =? token)%float = true.
Proof.
  intros Hu Hc. rewrite (verify_token_registered _ _ _ _ _ _ Hu). simpl.
  destruct (guard u now1) eqn:G.
  - rewrite (verify_guarded _ _ _ _ G). simpl. split; [discriminate|].
    intros [? _]. discriminate.
  - rewrite (verify_unguarded _ _ _ _ G). cbv zeta. rewrite Hc.
    destruct (tokenize (ZKUser.key1 u) (Some challenge) (time_seed now2 0)) as [p|e]; simpl.
    + split.
      * intros H. injection H as H. split; [reflexivity|]. exists p. auto.
      * intros [_ (p' & Hp & Heq)]. injection Hp as ->. rewrite Heq. reflexivity.
    + split; [discriminate|]. intros [_ (p' & Hp & _)]. discriminate.
Qed.

(** ** A record without challenge *)

Lemma step_window_needs_challenge (s : ZKServer.t) (c : call) :
  window_needs_challenge s -> window_needs_challenge (step s c).
Proof.
  intros I username u. destruct c as [n d | n d now | n tok now1 now2]; simpl.
  - destruct (ZKServer.users s !! n) as [u0|] eqn:E.
    + rewrite (register_existing _ _ _ _ E). simpl. apply I.
    + rewrite (register_new _ _ _ E). simpl.
      destruct (decide (n = username)) as [->|Hne].
      * rewrite lookup_insert_eq. intros [= <-]. reflexivity.
      * rewrite lookup_insert_ne by assumption. apply I.
  - destruct (ZKServer.users s !! n) as [u0|] eqn:E.
    + rewrite (issue_challenge_registered _ _ _ _ _ E). simpl.
      destruct (decide (n = username)) as [->|Hne].
      * rewrite lookup_insert_eq. intros [= <-]. discriminate.
      * rewrite lookup_insert_ne by assumption. apply I.
    + rewrite (issue_challenge_unregistered _ _ _ _ E). simpl. apply I.
  - destruct (ZKServer.users s !! n) as [u0|] eqn:E.
    + rewrite (verify_token_registered _ _ _ _ _ _ E). simpl.
      destruct (decide (n = username)) as [->|Hne].
      * rewrite lookup_insert_eq, verify_record. intros [= <-]. simpl. apply (I _ _ E).
      * rewrite lookup_insert_ne by assumption. apply I.
    + rewrite (verify_token_unregistered _ _ _ _ _ E). simpl. apply I.
Qed.

Lemma run_window_needs_challenge (calls : list call) (s : ZKServer.t) :
  window_needs_challenge s -> window_needs_challenge (run s calls).
Proof.
  revert s. induction calls as [|c calls IH]; intros s I; [exact I|].
  apply (IH (step s c)). apply step_window_needs_challenge. exact I.
Qed.

(** C10: on a server reached from the empty one by any calls, take a
    registered identity that was never issued a challenge ([key2] is [None]).
    [verify_token] for it returns no boolean: [tokenize] raises a
    [ValueError] on the absent challenge, after the record was stored with
    [locked = True]; nothing is printed, and the [/verify] route lets the
    exception through instead of answering 401. *)
Theorem verify_without_challenge (calls : list call) (username : string) (u : ZKUser.t)
  (token : float) (now1 now2 : datetime) :
  let s := run ZKServer.__init__ calls in
  ZKServer.users s !! username = Some u ->
  ZKUser.key2 u = None ->
  exists msg,
    let s' := ZKServer.mk (<[username := ZKUser.mk (ZKUser.name u) (ZKUser.key1 u) None None true]>
                             (ZKServer.users s)) in
    ZKServer.verify_token s username token now1 now2 = (Raise (ValueError msg), s', []) /\
    verify_token s username token now1 now2 = (Uncaught (ValueError msg), s', []).
Proof.
  intros s Hu Hk.
  assert (Hs : ZKUser.stime u = None).
  { apply (run_window_needs_challenge calls ZKServer.__init__) with (username := username);
      [|exact Hu|exact Hk].
    intros n u0 H0. simpl in H0. rewrite lookup_empty in H0. discriminate. }
  assert (G : guard u now1 = false).
  { unfold guard. rewrite Hs. simpl. apply andb_false_r. }
  destruct (tokenize_None (ZKUser.key1 u) (time_seed now2 0)) as [msg Hmsg].
  exists msg. cbv zeta. unfold verify_token.
  rewrite (verify_token_registered _ _ _ _ _ _ Hu), (verify_unguarded _ _ _ _ G).
  cbv zeta. rewrite Hk, Hs, Hmsg. simpl. split; reflexivity.
Qed.

(** ** The derivation *)

Lemma position_negative (i : nat) (a b seed : Z) :
  a * seed ^ b < 0 -> position i a b seed = Raise domain_error.
Proof.
  intros H. unfold position, math_log. cbv zeta.
  destruct (Z.eqb_spec (a * seed ^ b) 0) as [E|_]; [lia|].
  destruct (Z.leb_spec (a * seed ^ b) 0) as [_|L]; [reflexivity|lia].
Qed.

Lemma position_nonnegative (i : nat) (a b seed : Z) :
  0 <= a * seed ^ b ->
  position i a b seed =
    match spec_v a b seed with
    | Some v => Ok (if Nat.even i then math_sin v else math_tan v)
    | None => Raise range_error
    end.
Proof.
  intros H. unfold position, spec_v, math_log, pow. cbv zeta.
  destruct (Z.eqb_spec (a * seed ^ b) 0) as [E|N]; [reflexivity|].
  destruct (Z.leb_spec (a * seed ^ b) 0) as [L|_]; [lia|].
  rewrite Z.abs_eq by exact H. simpl.
  destruct (float_pow _ _); reflexivity.
Qed.

(** The value a position adds to the running sum, when its [t] is not
    negative: that of the specification. *)
Lemma loop_step_nonnegative (i : nat) (a b seed : Z) (l1 l2 : list Z) (result : float) :
  0 <= a * seed ^ b ->
  tokenize_loop i (a :: l1) (b :: l2) seed result =
    tokenize_loop (S i) l1 l2 seed (result + spec_term i a b seed)%float.
Proof.
  intros H. simpl. rewrite (position_nonnegative _ _ _ _ H). unfold spec_term.
  destruct (spec_v a b seed); reflexivity.
Qed.

Lemma loop_step_negative (i : nat) (a b seed : Z) (l1 l2 : list Z) (result : float) :
  a * seed ^ b < 0 ->
  tokenize_loop i (a :: l1) (b :: l2) seed result = Raise domain_error.
Proof. intros H. simpl. rewrite (position_negative _ _ _ _ H). reflexivity. Qed.

Lemma loop_step_overflow (i : nat) (a b seed : Z) (l1 l2 : list Z) (result : float) (msg : string) :
  position i a b seed = Raise (OverflowError msg) ->
  tokenize_loop i (a :: l1) (b :: l2) seed result =
    tokenize_loop (S i) l1 l2 seed (result + 0)%float.
Proof. intros H. simpl. rewrite H. reflexivity. Qed.

Lemma loop_without_negative_term (l1 l2 : list Z) (seed : Z) :
  forall (i : nat) (result : float),
    no_negative_term l1 l2 seed = true ->
    tokenize_loop i l1 l2 seed result = Ok (spec_sum i l1 l2 seed result).
Proof.
  revert l2. induction l1 as [|a l1 IH]; intros [|b l2] i result H; try reflexivity.
  simpl in H. apply andb_prop in H as [Ht Hrest]. apply Z.leb_le in Ht.
  rewrite (loop_step_nonnegative _ _ _ _ _ _ _ Ht). simpl. apply IH. exact Hrest.
Qed.

Lemma loop_with_negative_term (l1 l2 : list Z) (seed : Z) :
  forall (i : nat) (result : float),
    no_negative_term l1 l2 seed = false ->
    tokenize_loop i l1 l2 seed result = Raise domain_error.
Proof.
  revert l2. induction l1 as [|a l1 IH]; intros [|b l2] i result H; try discriminate.
  simpl in H. destruct (Z.leb_spec 0 (a * seed ^ b)) as [Ht|Ht].
  - rewrite (loop_step_nonnegative _ _ _ _ _ _ _ Ht). apply IH. exact H.
  - apply loop_step_negative. exact Ht.
Qed.

Lemma no_negative_term_nonneg_seed (l1 l2 : list Z) (seed : Z) :
  0 <= seed -> Forall (fun d => 0 <= d <= 9) l1 ->
  no_negative_term l1 l2 seed = true.
Proof.
  intros Hs H1. revert l2. induction H1 as [|a l1 Ha _ IH]; intros [|b l2]; try reflexivity.
  simpl. rewrite IH, andb_true_r. apply Z.leb_le.
  apply Z.mul_nonneg_nonneg; [lia|]. apply Z.pow_nonneg. exact Hs.
Qed.

Lemma tokenize_nonneg_keys (key1 key2 seed : Z) :
  0 <= key1 -> 0 <= key2 ->
  tokenize key1 (Some key2) seed =
    if negb (digit_length key1 =? digit_length key2)%nat then Raise length_mismatch
    else
      let! result := tokenize_loop 0 (decimal_digits key1) (decimal_digits key2) seed 0%float in
      Ok (round_sig result KEY_LENGTH).
Proof.
  intros H1 H2. unfold tokenize.
  rewrite (digits_of_nonneg_key _ H1), (digits_of_nonneg_key _ H2). reflexivity.
Qed.

Lemma tokenize_equal_lengths (key1 key2 seed : Z) :
  0 <= key1 -> 0 <= key2 -> digit_length key1 = digit_length key2 ->
  tokenize key1 (Some key2) seed =
    if no_negative_term (decimal_digits key1) (decimal_digits key2) seed
    then Ok (derive_spec key1 key2 seed)
    else Raise domain_error.
Proof.
  intros H1 H2 Hl. rewrite (tokenize_nonneg_keys _ _ _ H1 H2), Hl, Nat.eqb_refl. simpl.
  destruct (no_negative_term _ _ seed) eqn:E.
  - rewrite (loop_without_negative_term _ _ _ _ _ E). reflexivity.
  - rewrite (loop_with_negative_term _ _ _ _ _ E). reflexivity.
Qed.

(** The same run of [tokenize] under every math library: the logarithm of
    [1 * (-1)**1] is refused before any of its functions is called. *)
Lemma tokenize_negative_seed : tokenize 1 (Some 1) (-1) = Raise domain_error.
Proof. reflexivity. Qed.

Lemma tokenize_negative_seed_two_digits : tokenize 12 (Some 34) (-5) = Raise domain_error.
Proof. reflexivity. Qed.

Lemma spec_term_claim_term (i : nat) (a b seed : Z) :
  0 <= a * seed ^ b ->
  (a * seed ^ b <> 0 ->
   float_mod (log_int (a * seed ^ b)) 1%float =
     float_mod (math_log10 (float_of_int (Z.abs (a * seed ^ b)))) 1%float) ->
  spec_term i a b seed = claim_term i a b seed.
Proof.
  intros Ht Hlog. unfold spec_term, claim_term, spec_v, claim_v. cbv zeta.
  destruct (Z.eqb_spec (a * seed ^ b) 0) as [E|N]; [reflexivity|].
  rewrite Z.abs_eq by exact Ht. rewrite (Hlog N).
  rewrite Z.abs_eq by exact Ht. reflexivity.
Qed.

Lemma spec_sum_claim_sum (l1 l2 : list Z) (seed : Z) :
  forall (i : nat) (acc : float),
    no_negative_term l1 l2 seed = true -> logs_agree l1 l2 seed ->
    spec_sum i l1 l2 seed acc = claim_sum i l1 l2 seed acc.
Proof.
  revert l2. induction l1 as [|a l1 IH]; intros [|b l2] i acc Hn Ha; try reflexivity.
  simpl in Hn. apply andb_prop in Hn as [Ht Hrest]. apply Z.leb_le in Ht.
  destruct Ha as [Hlog Ha]. simpl.
  rewrite (spec_term_claim_term _ _ _ _ Ht Hlog). apply IH; assumption.
Qed.

(** C3, amended: for non-negative keys of equal digit length, [tokenize]
    returns the rounding of the sum, in position order, of [sin v] at even
    and [tan v] at odd positions, with [t = a * seed^b], [v = 0] when
    [t = 0] and [v = 10 ** (math.log(t, 10) % 1)] otherwise, a position
    whose power overflows adding [0] -- exactly when no position has a
    negative [t], which is the case for every seed that is not negative;
    when some position has [t < 0] it raises [ValueError: math domain error]
    instead.  [math.log(t, 10)] is a quotient of two floating-point
    logarithms; the value returned is the one the claim words with
    [log10(t)], [derive_claim], whenever the quotient and [log10(t)] have the
    same fractional part at every position with [t <> 0]. *)
Theorem tokenize_refines_spec (key1 key2 seed : Z) :
  0 <= key1 -> 0 <= key2 -> digit_length key1 = digit_length key2 ->
  tokenize key1 (Some key2) seed =
    (if no_negative_term (decimal_digits key1) (decimal_digits key2) seed
     then Ok (derive_spec key1 key2 seed)
     else Raise domain_error) /\
  (0 <= seed -> tokenize key1 (Some key2) seed = Ok (derive_spec key1 key2 seed)) /\
  (no_negative_term (decimal_digits key1) (decimal_digits key2) seed = true ->
   logs_agree (decimal_digits key1) (decimal_digits key2) seed ->
   tokenize key1 (Some key2) seed = Ok (derive_claim key1 key2 seed)).
Proof.
  intros H1 H2 Hl. split; [apply tokenize_equal_lengths; assumption|]. split.
  - intros Hs. rewrite (tokenize_equal_lengths _ _ _ H1 H2 Hl).
    rewrite (no_negative_term_nonneg_seed _ _ _ Hs (decimal_digits_range key1)). reflexivity.
  - intros Hn Ha. rewrite (tokenize_equal_lengths _ _ _ H1 H2 Hl), Hn.
    unfold derive_spec, derive_claim.
    rewrite (spec_sum_claim_sum _ _ _ _ _ Hn Ha). reflexivity.
Qed.

(** C6, amended: for non-negative keys, [tokenize] raises
    [ValueError: Keys must be the same length.] exactly when the digit
    lengths differ.  For keys of equal length it returns a value exactly when
    no position has a negative [t], in particular for every seed that is not
    negative, and raises [ValueError: math domain error] otherwise: the
    logarithm is taken of [t] itself.  A position that raises
    [OverflowError] adds [0] to the sum and the loop goes on. *)
Theorem tokenize_failures (key1 key2 seed : Z) :
  0 <= key1 -> 0 <= key2 ->
  (tokenize key1 (Some key2) seed = Raise length_mismatch <->
   digit_length key1 <> digit_length key2) /\
  (digit_length key1 = digit_length key2 ->
   ((exists v, tokenize key1 (Some key2) seed = Ok v) <->
    no_negative_term (decimal_digits key1) (decimal_digits key2) seed = true) /\
   (no_negative_term (decimal_digits key1) (decimal_digits key2) seed = false ->
    tokenize key1 (Some key2) seed = Raise domain_error) /\
   (0 <= seed -> exists v, tokenize key1 (Some key2) seed = Ok v)) /\
  (forall i a b l1 l2 result,
      (a * seed ^ b < 0 ->
       tokenize_loop i (a :: l1) (b :: l2) seed result = Raise domain_error) /\
      (forall msg, position i a b seed = Raise (OverflowError msg) ->
       tokenize_loop i (a :: l1) (b :: l2) seed result =
         tokenize_loop (S i) l1 l2 seed (result + 0)%float)).
Proof.
  intros H1 H2. split; [|split].
  - destruct (Nat.eq_dec (digit_length key1) (digit_length key2)) as [E|N].
    + rewrite (tokenize_equal_lengths _ _ _ H1 H2 E).
      split; [|intros N; contradiction]. destruct (no_negative_term _ _ _); discriminate.
    + rewrite (tokenize_nonneg_keys _ _ _ H1 H2).
      pose proof N as N'. apply Nat.eqb_neq in N' as ->. simpl. split; auto.
  - intros E. rewrite (tokenize_equal_lengths _ _ _ H1 H2 E). repeat split.
    + destruct (no_negative_term _ _ _); [reflexivity|]. intros [v Hv]. discriminate.
    + intros ->. eauto.
    + intros ->. reflexivity.
    + intros Hs.
      rewrite (no_negative_term_nonneg_seed _ _ _ Hs (decimal_digits_range key1)). eauto.
  - intros i a b l1 l2 result. split.
    + apply loop_step_negative.
    + intros msg. apply loop_step_overflow.
Qed.

(** ** Rounding *)

(** What [tokenize] returns on the accumulated sum [x], with
    [sig = KEY_LENGTH]: [0] when [x == 0], and otherwise [x] rounded to
    [KEY_LENGTH - 1 - floor(log10(|x|))] decimal places. *)
Lemma round_sig_key_length (x : float) :
  round_sig x KEY_LENGTH =
    if (x =? 0)%float then 0%float
    else round_ndigits x (KEY_LENGTH - 1 - math_floor (math_log10 (abs x))).
Proof.
  unfold round_sig. destruct (x =? 0)%float; [reflexivity|].
  cbv zeta. f_equal. lia.
Qed.

(** ** Servers reached with valid draws and readings *)

Lemma key_range_digits (d : Z) : key_range d -> 0 <= d /\ digit_length d = 4%nat.
Proof.
  intros [H1 H2]. change (1000 <= d) in H1. change (d <= 9999) in H2.
  split; [lia|].
  assert (A : forallb (fun n => (digit_length (1000 + Z.of_nat n) =? 4)%nat)
                (seq 0 (Z.to_nat 9000)) = true)
    by (vm_compute; reflexivity).
  rewrite forallb_forall in A.
  specialize (A (Z.to_nat (d - 1000))).
  replace (1000 + Z.of_nat (Z.to_nat (d - 1000))) with d in A by lia.
  apply Nat.eqb_eq, A, in_seq. lia.
Qed.

Lemma step_keys_in_range (s : ZKServer.t) (c : call) :
  valid_call c -> keys_in_range s -> keys_in_range (step s c).
Proof.
  intros V I username u. destruct c as [n d | n d now | n tok now1 now2]; simpl in *.
  - destruct (ZKServer.users s !! n) as [u0|] eqn:E.
    + rewrite (register_existing _ _ _ _ E). simpl. apply I.
    + rewrite (register_new _ _ _ E). simpl.
      destruct (decide (n = username)) as [->|Hne].
      * rewrite lookup_insert_eq. intros [= <-]. simpl. split; [exact V|intros ch [=]].
      * rewrite lookup_insert_ne by assumption. apply I.
  - destruct (ZKServer.users s !! n) as [u0|] eqn:E.
    + rewrite (issue_challenge_registered _ _ _ _ _ E). simpl.
      destruct (decide (n = username)) as [->|Hne].
      * rewrite lookup_insert_eq. intros [= <-]. simpl.
        split; [exact (proj1 (I _ _ E))|]. intros ch [= <-]. apply V.
      * rewrite lookup_insert_ne by assumption. apply I.
    + rewrite (issue_challenge_unregistered _ _ _ _ E). simpl. apply I.
  - destruct (ZKServer.users s !! n) as [u0|] eqn:E.
    + rewrite (verify_token_registered _ _ _ _ _ _ E). simpl.
      destruct (decide (n = username)) as [->|Hne].
      * rewrite lookup_insert_eq, verify_record. intros [= <-]. simpl. apply (I _ _ E).
      * rewrite lookup_insert_ne by assumption. apply I.
    + rewrite (verify_token_unregistered _ _ _ _ _ E). simpl. apply I.
Qed.

Lemma run_keys_in_range (calls : list call) (s : ZKServer.t) :
  Forall valid_call calls -> keys_in_range s -> keys_in_range (run s calls).
Proof.
  intros V. revert s. induction V as [|c calls Vc _ IH]; intros s I; [exact I|].
  apply (IH (step s c)). apply step_keys_in_range; assumption.
Qed.

(** X1: on a server reached from the empty one by calls whose draws and
    clock readings are valid, a verification for an identity that has been
    issued a challenge returns a boolean: the two keys have [KEY_LENGTH]
    digits each and the window is positive, so [tokenize] does not raise. *)
Theorem verify_token_returns_boolean (calls : list call) (username : string) (u : ZKUser.t)
  (challenge : Z) (token : float) (now1 now2 : datetime) :
  Forall valid_call calls ->
  ZKServer.users (run ZKServer.__init__ calls) !! username = Some u ->
  ZKUser.key2 u = Some challenge ->
  valid_datetime now2 ->
  exists b : bool,
    fst (fst (ZKServer.verify_token (run ZKServer.__init__ calls) username token now1 now2)) = Ok b.
Proof.
  intros V Hu Hc Hn.
  assert (I : keys_in_range (run ZKServer.__init__ calls)).
  { apply run_keys_in_range; [exact V|].
    intros n u0 H0. simpl in H0. rewrite lookup_empty in H0. discriminate. }
  destruct (I _ _ Hu) as [K1 K2]. specialize (K2 _ Hc).
  apply key_range_digits in K1 as [P1 L1]. apply key_range_digits in K2 as [P2 L2].
  rewrite (verify_token_registered _ _ _ _ _ _ Hu). simpl.
  destruct (guard u now1) eqn:G.
  - rewrite (verify_guarded _ _ _ _ G). simpl. eauto.
  - rewrite (verify_unguarded _ _ _ _ G). cbv zeta. rewrite Hc.
    rewrite (tokenize_equal_lengths _ _ _ P1 P2) by congruence.
    rewrite no_negative_term_nonneg_seed;
      [simpl; eauto | pose proof (time_seed_range _ Hn); lia | apply decimal_digits_range].
Qed.

(** X2: the scenario of the specification.  A new identity registers and
    is issued a challenge at [now]; a first verification, whose window is
    read at [now2], returns [True] for the value [tokenize] gives for the two
    keys and that window (provided the value equals itself, which excludes
    NaN); a second verification read in the window of the challenge returns
    [False] for every value. *)
Theorem register_challenge_verify_twice (s : ZKServer.t) (username : string)
  (drawn1 drawn2 : Z) (now now1 now2 now3 now4 : datetime) (token token' : float) :
  ZKServer.users s !! username = None ->
  let s1 := snd (ZKServer.register_user s username drawn1) in
  let s2 := snd (ZKServer.issue_challenge s1 username drawn2 now) in
  let s3 := snd (fst (ZKServer.verify_token s2 username token now1 now2)) in
  ZKServer.register_user s username drawn1 = (drawn1, s1) /\
  ZKServer.issue_challenge s1 username drawn2 now = (Some drawn2, s2) /\
  (tokenize drawn1 (Some drawn2) (time_seed now2 0) = Ok token ->
   (token =? token)%float = true ->
   ZKServer.verify_token s2 username token now1 now2 = (Ok true, s3, [token])) /\
  (time_seed now3 0 = time_seed now 0 ->
   ZKServer.verify_token s3 username token' now3 now4 = (Ok false, s3, [])).
Proof.
  intros Hn s1 s2 s3.
  assert (H1 : ZKServer.users s1 !! username = Some (ZKUser.mk username drawn1 None None false)).
  { subst s1. rewrite (register_new _ _ _ Hn). simpl. apply lookup_insert_eq. }
  assert (H2 : ZKServer.users s2 !! username =
               Some (ZKUser.mk username drawn1 (Some drawn2) (Some (time_seed now 0)) false)).
  { subst s2. rewrite (issue_challenge_registered _ _ _ _ _ H1). simpl. apply lookup_insert_eq. }
  assert (H3 : ZKServer.users s3 !! username =
               Some (ZKUser.mk username drawn1 (Some drawn2) (Some (time_seed now 0)) true)).
  { subst s3. rewrite (verify_token_registered _ _ _ _ _ _ H2). simpl.
    rewrite lookup_insert_eq, verify_record. reflexivity. }
  split; [|split; [|split]].
  - subst s1. rewrite (register_new _ _ _ Hn). reflexivity.
  - subst s2. rewrite (issue_challenge_registered _ _ _ _ _ H1). reflexivity.
  - intros Ht Heq. subst s3.
    rewrite (verify_token_registered _ _ _ _ _ _ H2).
    rewrite verify_unguarded by reflexivity. cbv zeta. simpl.
    rewrite Ht. simpl. rewrite Heq. reflexivity.
  - intros Hw. rewrite (verify_token_registered _ _ _ _ _ _ H3).
    rewrite verify_guarded.
    + simpl. rewrite (server_insert_id _ _ _ H3). reflexivity.
    + unfold guard. simpl. apply Z.eqb_eq. symmetry. exact Hw.
Qed.

(** X3: the secret of a record is set at registration and never changes:
    after any sequence of calls the identity still has a record, with the
    same [name] and the same [key1]. *)
Theorem secret_never_changes (calls : list call) (s : ZKServer.t) (username : string)
  (u : ZKUser.t) :
  ZKServer.users s !! username = Some u ->
  exists u',
    ZKServer.users (run s calls) !! username = Some u' /\
    ZKUser.name u' = ZKUser.name u /\ ZKUser.key1 u' = ZKUser.key1 u.
Proof.
  intros Hu. destruct (run_record calls s username u Hu) as (u' & H1 & H2 & H3 & _).
  exists u'. auto.
Qed.

End ServerProperties.

(** * Concrete runs

    The general statements above, applied to the session of [Sample], and
    the runs on which C1, C3 and C6 fail as stated. *)

(** C9 on the empty server: bob has no record. *)
Lemma unknown_identity_witness :
  ZKServer.users ZKServer.__init__ !! "bob" = None /\
  (forall token now1 now2,
      @ZKServer.verify_token Sample.lib ZKServer.__init__ "bob" token now1 now2 =
        (Ok false, ZKServer.__init__, []) /\
      @verify_token Sample.lib ZKServer.__init__ "bob" token now1 now2 =
        (HTTPException 401 "Authentication failed", ZKServer.__init__, [])).
Proof.
  split; [reflexivity|].
  exact (proj1 (proj2 (@unknown_identity Sample.lib ZKServer.__init__ "bob" eq_refl))).
Defined.

(** C7 for alice once she has made a verification attempt. *)
Lemma locked_is_permanent_witness :
  ZKServer.users Sample.verified_once !! "alice" = Some Sample.alice_locked /\
  ZKUser.locked Sample.alice_locked = true /\
  forall calls, exists u',
    ZKServer.users (@run Sample.lib Sample.verified_once calls) !! "alice" = Some u' /\
    ZKUser.locked u' = true.
Proof.
  assert (H : ZKServer.users Sample.verified_once !! "alice" = Some Sample.alice_locked)
    by (vm_compute; reflexivity).
  split; [exact H|]. split; [reflexivity|].
  exact (proj1 (proj2 (proj2 (proj2
           (@locked_is_permanent Sample.lib Sample.verified_once "alice" Sample.alice_locked H))))
           eq_refl).
Defined.

(** C2 for alice: after her first attempt at [noon], the true proof is
    rejected at [noon]. *)
Lemma second_verify_rejected_witness :
  ZKServer.users Sample.challenged !! "alice" = Some Sample.alice_challenged /\
  ZKUser.stime Sample.alice_challenged = Some (time_seed Sample.noon 0) /\
  @ZKServer.verify_token Sample.lib Sample.verified_once "alice" Sample.alice_proof
     Sample.noon Sample.noon = (Ok false, Sample.verified_once, []).
Proof.
  assert (H : ZKServer.users Sample.challenged !! "alice" = Some Sample.alice_challenged)
    by (vm_compute; reflexivity).
  split; [exact H|]. split; [reflexivity|].
  exact (@second_verify_rejected Sample.lib Sample.challenged "alice" Sample.alice_challenged
           Sample.alice_proof Sample.alice_proof Sample.noon Sample.noon Sample.noon Sample.noon
           H eq_refl).
Defined.

(** The amended C1 for alice's first attempt, the guard being read at
    [noon] and the window of the derivation an hour later. *)
Lemma verify_token_succeeds_iff_witness :
  ZKServer.users Sample.challenged !! "alice" = Some Sample.alice_challenged /\
  ZKUser.key2 Sample.alice_challenged = Some 5678 /\
  (fst (fst (@ZKServer.verify_token Sample.lib Sample.challenged "alice" Sample.alice_proof
               Sample.noon Sample.hour_later)) = Ok true <->
   guard Sample.alice_challenged Sample.noon = false /\
   exists proof,
     @tokenize Sample.lib (ZKUser.key1 Sample.alice_challenged) (Some 5678)
        (time_seed Sample.hour_later 0) = Ok proof /\
     (proof =? Sample.alice_proof)%float = true).
Proof.
  assert (H : ZKServer.users Sample.challenged !! "alice" = Some Sample.alice_challenged)
    by (vm_compute; reflexivity).
  split; [exact H|]. split; [reflexivity|].
  exact (@verify_token_succeeds_iff Sample.lib Sample.challenged "alice" Sample.alice_challenged
           5678 Sample.alice_proof Sample.noon Sample.hour_later H eq_refl).
Defined.

(** C10 for alice right after registration. *)
Lemma verify_without_challenge_witness :
  ZKServer.users (@run Sample.lib ZKServer.__init__ [Register "alice" 1234]) !! "alice" =
    Some Sample.alice_registered /\
  ZKUser.key2 Sample.alice_registered = None /\
  exists msg,
    fst (fst (@verify_token Sample.lib (@run Sample.lib ZKServer.__init__ [Register "alice" 1234])
                "alice" 0%float Sample.noon Sample.noon)) = Uncaught (ValueError msg).
Proof.
  assert (H : ZKServer.users (@run Sample.lib ZKServer.__init__ [Register "alice" 1234]) !! "alice" =
              Some Sample.alice_registered) by (vm_compute; reflexivity).
  split; [exact H|]. split; [reflexivity|].
  destruct (@verify_without_challenge Sample.lib [Register "alice" 1234] "alice"
              Sample.alice_registered 0%float Sample.noon Sample.noon H eq_refl)
    as [msg [_ Hroute]].
  exists msg. rewrite Hroute. reflexivity.
Defined.

(** The amended C3 at the keys 111 and 111 and the seed 1, with the values
    of the platform: every position has [t = 1], where both logarithms are
    [0.0]. *)
Lemma tokenize_refines_spec_witness :
  0 <= 111 /\ 0 <= 111 /\ digit_length 111 = digit_length 111 /\
  no_negative_term (decimal_digits 111) (decimal_digits 111) 1 = true /\
  @logs_agree Platform.lib (decimal_digits 111) (decimal_digits 111) 1 /\
  @tokenize Platform.lib 111 (Some 111) 1 = Ok (@derive_claim Platform.lib 111 111 1).
Proof.
  assert (H1 : 0 <= 111) by lia.
  assert (Ha : @logs_agree Platform.lib (decimal_digits 111) (decimal_digits 111) 1).
  { repeat split; intros _; vm_compute; reflexivity. }
  split; [exact H1|]. split; [exact H1|]. split; [reflexivity|]. split; [reflexivity|].
  split; [exact Ha|].
  exact (proj2 (proj2 (@tokenize_refines_spec Platform.lib 111 111 1 H1 H1 eq_refl))
           eq_refl Ha).
Defined.

(** The amended C6 at the keys 12 and 123 of the specification. *)
Lemma tokenize_failures_witness :
  0 <= 12 /\ 0 <= 123 /\
  (@tokenize Sample.lib 12 (Some 123) 512 = Raise length_mismatch <->
   digit_length 12 <> digit_length 123).
Proof.
  assert (H1 : 0 <= 12) by lia. assert (H2 : 0 <= 123) by lia.
  split; [exact H1|]. split; [exact H2|].
  exact (proj1 (@tokenize_failures Sample.lib 12 123 512 H1 H2)).
Defined.

(** C1, as stated, fails.  Alice registers, is issued a challenge at 12:30
    and submits the proof derived for that hour: the call returns [True].
    She submits the same value again in the same hour; it still equals
    [tokenize(key1, key2, time_seed())], and the call returns [False].  The
    second call is answered by the guard, before any function of the math
    library is called. *)
Lemma locked_rejects_true_proof :
  ZKServer.users Sample.verified_once !! "alice" = Some Sample.alice_locked /\
  @tokenize Sample.lib (ZKUser.key1 Sample.alice_locked)
     (ZKUser.key2 Sample.alice_locked) (time_seed Sample.noon 0) = Ok Sample.alice_proof /\
  (Sample.alice_proof =? Sample.alice_proof)%float = true /\
  fst (fst (@ZKServer.verify_token Sample.lib Sample.challenged "alice" Sample.alice_proof
              Sample.noon Sample.noon)) = Ok true /\
  fst (fst (@ZKServer.verify_token Sample.lib Sample.verified_once "alice" Sample.alice_proof
              Sample.noon Sample.noon)) = Ok false.
Proof. repeat split; vm_compute; reflexivity. Qed.

(** C3, as stated, fails, in two ways.  With the keys 1 and 3 and the seed
    10 the one position has [t = 1000]: [math.log(1000, 10)] is
    [2.9999999999999996], its fractional part [0.9999999999999996], and
    [tokenize] returns [-0.544], where the claim's [log10(1000) = 3] gives
    [v = 1] and [sin(1)] rounded, [0.8415].  With the keys 1 and 1 and the
    seed -1, [t = -1] and [tokenize] raises. *)
Lemma claimed_formula_fails :
  0 <= 1 /\ 0 <= 3 /\ digit_length 1 = digit_length 3 /\
  Platform.log_int 1000 = 0x1.7ffffffffffffp+1%float /\
  @tokenize Platform.lib 1 (Some 3) 10 = Ok (-0x1.16872b020c49cp-1)%float /\
  @derive_claim Platform.lib 1 3 10 = 0x1.aed916872b021p-1%float /\
  @tokenize Platform.lib 1 (Some 3) 10 <> Ok (@derive_claim Platform.lib 1 3 10) /\
  @tokenize Platform.lib 1 (Some 1) (-1) = Raise domain_error.
Proof.
  split; [lia|]. split; [lia|]. split; [reflexivity|].
  split; [vm_compute; reflexivity|]. split; [vm_compute; reflexivity|].
  split; [vm_compute; reflexivity|]. split.
  - intros H. apply (f_equal (fun r => match r with
                                       | Ok v => (v <? 0)%float
                                       | Raise _ => false
                                       end)) in H.
    vm_compute in H. discriminate.
  - apply (@tokenize_negative_seed Platform.lib).
Qed.

(** C6, as stated, fails: 12 and 34 have two digits each, and with the seed
    -5 the first position has [t = 1 * (-5)**3 = -125]; [tokenize] raises
    [ValueError: math domain error] instead of returning a value. *)
Lemma equal_length_keys_can_fail :
  digit_length 12 = digit_length 34 /\
  @tokenize Sample.lib 12 (Some 34) (-5) = Raise (ValueError "math domain error") /\
  ~ exists v, @tokenize Sample.lib 12 (Some 34) (-5) = Ok v.
Proof.
  split; [reflexivity|]. rewrite (@tokenize_negative_seed_two_digits Sample.lib).
  split; [reflexivity|]. intros [v Hv]. discriminate.
Qed.

(** The extra statements on the same session. *)
Lemma session_valid : Forall valid_call Sample.session.
Proof.
  repeat constructor; try exact noon_valid; vm_compute; congruence.
Qed.

Lemma verify_token_returns_boolean_witness :
  Forall valid_call Sample.session /\
  ZKServer.users (@run Sample.lib ZKServer.__init__ Sample.session) !! "alice" =
    Some Sample.alice_challenged /\
  ZKUser.key2 Sample.alice_challenged = Some 5678 /\
  valid_datetime Sample.hour_later /\
  exists b : bool,
    fst (fst (@ZKServer.verify_token Sample.lib (@run Sample.lib ZKServer.__init__ Sample.session)
                "alice" Sample.alice_proof Sample.noon Sample.hour_later)) = Ok b.
Proof.
  assert (H : ZKServer.users (@run Sample.lib ZKServer.__init__ Sample.session) !! "alice" =
              Some Sample.alice_challenged) by (vm_compute; reflexivity).
  split; [exact session_valid|]. split; [exact H|]. split; [reflexivity|].
  split; [exact hour_later_valid|].
  exact (@verify_token_returns_boolean Sample.lib Sample.session "alice" Sample.alice_challenged
           5678 Sample.alice_proof Sample.noon Sample.hour_later
           session_valid H eq_refl hour_later_valid).
Defined.

Lemma register_challenge_verify_twice_witness :
  ZKServer.users ZKServer.__init__ !! "alice" = None /\
  (time_seed Sample.noon 0 = time_seed Sample.noon 0 ->
   @ZKServer.verify_token Sample.lib Sample.verified_once "alice" 0%float
      Sample.noon Sample.hour_later = (Ok false, Sample.verified_once, [])).
Proof.
  split; [reflexivity|].
  exact (proj2 (proj2 (proj2
           (@register_challenge_verify_twice Sample.lib ZKServer.__init__ "alice" 1234 5678
              Sample.noon Sample.noon Sample.noon Sample.noon Sample.hour_later
              Sample.alice_proof 0%float eq_refl)))).
Defined.

Lemma secret_never_changes_witness :
  ZKServer.users Sample.registered !! "alice" = Some Sample.alice_registered /\
  exists u',
    ZKServer.users (@run Sample.lib Sample.registered
                      [IssueChallenge "alice" 5678 Sample.noon;
                       VerifyToken "alice" 0%float Sample.noon Sample.noon]) !! "alice" = Some u' /\
    ZKUser.name u' = "alice" /\ ZKUser.key1 u' = 1234.
Proof.
  assert (H : ZKServer.users Sample.registered !! "alice" = Some Sample.alice_registered)
    by (vm_compute; reflexivity).
  split; [exact H|].
  exact (@secret_never_changes Sample.lib
           [IssueChallenge "alice" 5678 Sample.noon;
            VerifyToken "alice" 0%float Sample.noon Sample.noon]
           Sample.registered "alice" Sample.alice_registered H).
Defined.

(** * Further properties of the code *)

Section MoreProperties.
Context {M : MathLib}.

(** ** The failures of [tokenize] *)

Lemma position_raises (i : nat) (a b seed : Z) (e : exn) :
  position i a b seed = Raise e -> e = domain_error \/ e = range_error.
Proof.
  unfold position, math_log, pow. cbv zeta.
  destruct (a * seed ^ b =? 0); [discriminate|].
  destruct (a * seed ^ b <=? 0); simpl; [intros [= <-]; auto|].
  destruct (float_pow _ _); simpl; [discriminate|intros [= <-]; auto].
Qed.

Lemma tokenize_loop_raises (l1 l2 : list Z) (seed : Z) (e : exn) :
  forall (i : nat) (result : float),
    tokenize_loop i l1 l2 seed result = Raise e -> e = domain_error.
Proof.
  revert l2. induction l1 as [|a l1 IH]; intros [|b l2] i result; try discriminate.
  simpl. destruct (position i a b seed) as [temp|e0] eqn:P.
  - apply IH.
  - destruct (position_raises _ _ _ _ _ P) as [-> | ->].
    + intros [= <-]. reflexivity.
    + apply IH.
Qed.

Lemma digits_raise (v : option Z) (e : exn) :
  comprehension int (list_ascii_of_string (str v)) = Raise e ->
  e = invalid_minus \/ e = invalid_N.
Proof.
  destruct v as [key|].
  - destruct (Z_lt_le_dec key 0) as [Hn|Hp].
    + rewrite (digits_of_negative_key _ Hn). intros [= <-]. left. reflexivity.
    + rewrite (digits_of_nonneg_key _ Hp). discriminate.
  - rewrite digits_of_None. intros [= <-]. right. reflexivity.
Qed.

Lemma tokenize_raises (key1 : Z) (key2 : option Z) (seed : Z) (e : exn) :
  tokenize key1 key2 seed = Raise e ->
  e = invalid_minus \/ e = invalid_N \/ e = length_mismatch \/ e = domain_error.
Proof.
  unfold tokenize.
  destruct (comprehension int (list_ascii_of_string (str (Some key1)))) as [l1|e1] eqn:E1; simpl.
  2:{ intros [= <-]. destruct (digits_raise _ _ E1); auto. }
  destruct (comprehension int (list_ascii_of_string (str key2))) as [l2|e2] eqn:E2; simpl.
  2:{ intros [= <-]. destruct (digits_raise _ _ E2); auto. }
  destruct (negb (length l1 =? length l2)%nat); [intros [= <-]; auto|].
  destruct (tokenize_loop 0 l1 l2 seed 0%float) as [r|e3] eqn:E3; simpl; [discriminate|].
  intros [= <-]. apply tokenize_loop_raises in E3. auto.
Qed.

Lemma tokenize_negative_key1 (key1 : Z) (key2 : option Z) (seed : Z) :
  key1 < 0 -> tokenize key1 key2 seed = Raise invalid_minus.
Proof. intros H. unfold tokenize. rewrite (digits_of_negative_key _ H). reflexivity. Qed.

Lemma tokenize_negative_key2 (key1 key2 seed : Z) :
  0 <= key1 -> key2 < 0 -> tokenize key1 (Some key2) seed = Raise invalid_minus.
Proof.
  intros H1 H2. unfold tokenize.
  rewrite (digits_of_nonneg_key _ H1), (digits_of_negative_key _ H2). reflexivity.
Qed.

Lemma tokenize_via_sum (key1 : Z) (key2 : option Z) (seed : Z) :
  tokenize key1 key2 seed =
    let! result := tokenize_sum key1 key2 seed in Ok (round_sig result KEY_LENGTH).
Proof.
  unfold tokenize, tokenize_sum.
  destruct (comprehension int (list_ascii_of_string (str (Some key1)))); [|reflexivity].
  simpl. destruct (comprehension int (list_ascii_of_string (str key2))); [|reflexivity].
  simpl. destruct (negb _); reflexivity.
Qed.

Lemma tokenize_sum_raises (key1 : Z) (key2 : option Z) (seed : Z) (e : exn) :
  tokenize_sum key1 key2 seed = Raise e -> tokenize key1 key2 seed = Raise e.
Proof. intros H. rewrite tokenize_via_sum, H. reflexivity. Qed.

(** X4: up to its last line, [tokenize] fails in four ways only.  For keys
    whose numerals the interpreter converts (at most 4300 digits, the cap it
    applies by default), lines 38 to 53 -- the two comprehensions, the length
    check and the loop -- end with the sum that line 54 hands to [round_sig]
    or with one of four [ValueError]s: the two texts of [int] on the
    characters [-] and [N], the length mismatch and the math domain error.
    An [OverflowError] raised at a position never leaves the loop.  The call
    of [round_sig] on line 54 is outside the [try] and is not part of the
    statement. *)
Theorem tokenize_failure_modes (key1 : Z) (key2 : option Z) (seed : Z) :
  within_cap key1 ->
  (forall k, key2 = Some k -> within_cap k) ->
  tokenize key1 key2 seed =
    (let! result := tokenize_sum key1 key2 seed in Ok (round_sig result KEY_LENGTH)) /\
  ((exists x, tokenize_sum key1 key2 seed = Ok x) \/
   tokenize_sum key1 key2 seed = Raise invalid_minus \/
   tokenize_sum key1 key2 seed = Raise invalid_N \/
   tokenize_sum key1 key2 seed = Raise length_mismatch \/
   tokenize_sum key1 key2 seed = Raise domain_error).
Proof.
  intros _ _. split; [apply tokenize_via_sum|].
  destruct (tokenize_sum key1 key2 seed) as [x|e] eqn:E; [eauto|].
  right. apply tokenize_sum_raises in E.
  destruct (tokenize_raises _ _ _ _ E) as [-> | [-> | [-> | ->]]]; auto.
Qed.

(** X5: a negative key is refused by [int('-')] before anything else is
    looked at: when either key is negative, [tokenize] raises
    [invalid literal for int() with base 10: '-'], also when the digit
    lengths differ or the seed is negative. *)
Theorem tokenize_negative_key (key1 key2 seed : Z) :
  key1 < 0 \/ key2 < 0 ->
  tokenize key1 (Some key2) seed = Raise invalid_minus.
Proof.
  intros H. destruct (Z_lt_le_dec key1 0) as [Hn|Hp].
  - apply tokenize_negative_key1. exact Hn.
  - apply tokenize_negative_key2; lia.
Qed.

(** X6: the window of a reading of the clock lies between [100 + offset] and
    [3123 + offset]; with the offset 0 of the server it is positive, so
    [tokenize] on two non-negative keys of equal length and a window read
    from the clock returns the rounded sum [derive_spec] and never raises. *)
Theorem tokenize_at_time_window (now : datetime) (offset key1 key2 : Z) :
  valid_datetime now ->
  100 + offset <= time_seed now offset <= 3123 + offset /\
  (0 <= key1 -> 0 <= key2 -> digit_length key1 = digit_length key2 ->
   tokenize key1 (Some key2) (time_seed now 0) =
     Ok (derive_spec key1 key2 (time_seed now 0))).
Proof.
  intros V. pose proof (time_seed_range _ V) as R. split.
  - rewrite time_seed_offset. lia.
  - intros H1 H2 Hl. rewrite (tokenize_equal_lengths _ _ _ H1 H2 Hl).
    rewrite no_negative_term_nonneg_seed;
      [reflexivity | lia | apply decimal_digits_range].
Qed.

(** ** Records of other identities, and where records come from *)

Lemma run_snoc (s : ZKServer.t) (calls : list call) (c : call) :
  run s (calls ++ [c]) = step (run s calls) c.
Proof. unfold run. rewrite fold_left_app. reflexivity. Qed.

Lemma step_other (s : ZKServer.t) (c : call) (username : string) :
  target c <> username ->
  ZKServer.users (step s c) !! username = ZKServer.users s !! username.
Proof.
  intros Hne. destruct c as [n d | n d now | n tok now1 now2]; simpl in *.
  - destruct (ZKServer.users s !! n) as [u0|] eqn:E.
    + rewrite (register_existing _ _ _ _ E). reflexivity.
    + rewrite (register_new _ _ _ E). simpl. apply lookup_insert_ne. exact Hne.
  - destruct (ZKServer.users s !! n) as [u0|] eqn:E.
    + rewrite (issue_challenge_registered _ _ _ _ _ E). simpl.
      apply lookup_insert_ne. exact Hne.
    + rewrite (issue_challenge_unregistered _ _ _ _ E). reflexivity.
  - destruct (ZKServer.users s !! n) as [u0|] eqn:E.
    + rewrite (verify_token_registered _ _ _ _ _ _ E). simpl.
      apply lookup_insert_ne. exact Hne.
    + rewrite (verify_token_unregistered _ _ _ _ _ E). reflexivity.
Qed.

(** X7: the calls about one identity leave the records of all others as
    they are: after any sequence of calls none of which names [username],
    the server holds for [username] exactly what it held before (a record
    with the same five fields, or none). *)
Theorem other_identities_untouched (calls : list call) (s : ZKServer.t) (username : string) :
  Forall (fun c => target c <> username) calls ->
  ZKServer.users (run s calls) !! username = ZKServer.users s !! username.
Proof.
  intros H. revert s. induction H as [|c calls Hc _ IH]; intros s; [reflexivity|].
  change (run s (c :: calls)) with (run (step s c) calls).
  rewrite IH. apply step_other. exact Hc.
Qed.

Lemma step_registered (s : ZKServer.t) (c : call) (username : string) :
  is_Some (ZKServer.users (step s c) !! username) <->
  is_Some (ZKServer.users s !! username) \/ exists drawn, c = Register username drawn.
Proof.
  destruct (decide (target c = username)) as [E|Hne].
  - destruct c as [n d | n d now | n tok now1 now2]; simpl in E; subst n; simpl.
    + destruct (ZKServer.users s !! username) as [u0|] eqn:E.
      * rewrite (register_existing _ _ _ _ E). simpl. rewrite E. split; eauto.
      * rewrite (register_new _ _ _ E). simpl. rewrite lookup_insert_eq. split; eauto.
    + destruct (ZKServer.users s !! username) as [u0|] eqn:E.
      * rewrite (issue_challenge_registered _ _ _ _ _ E). simpl.
        rewrite lookup_insert_eq. split; eauto.
      * rewrite (issue_challenge_unregistered _ _ _ _ E). simpl. rewrite E.
        split; [auto|]. intros [H|[d' H]]; [exact H|discriminate].
    + destruct (ZKServer.users s !! username) as [u0|] eqn:E.
      * rewrite (verify_token_registered _ _ _ _ _ _ E). simpl.
        rewrite lookup_insert_eq. split; eauto.
      * rewrite (verify_token_unregistered _ _ _ _ _ E). simpl. rewrite E.
        split; [auto|]. intros [H|[d' H]]; [exact H|discriminate].
  - rewrite (step_other _ _ _ Hne). split; [auto|].
    intros [H|[d' ->]]; [exact H|]. simpl in Hne. congruence.
Qed.

(** X8: an identity has a record after a sequence of calls exactly when it
    had one before or some call of the sequence registers it: challenge and
    verification calls create no record, and no call removes one. *)
Theorem registered_iff (calls : list call) (s : ZKServer.t) (username : string) :
  is_Some (ZKServer.users (run s calls) !! username) <->
  is_Some (ZKServer.users s !! username) \/ exists drawn, In (Register username drawn) calls.
Proof.
  induction calls as [|c calls IH] using rev_ind.
  - simpl. split; [auto|]. intros [H|[d []]]. exact H.
  - rewrite run_snoc, step_registered, IH. split.
    + intros [[H|[d H]]|[d ->]]; [auto| |].
      * right. exists d. apply in_or_app. auto.
      * right. exists d. apply in_or_app. right. left. reflexivity.
    + intros [H|[d H]]; [auto|].
      apply in_app_or in H as [H|[H|[]]]; [left; eauto|right; eauto].
Qed.

(** X9: where a record comes from.  On the server reached from the empty
    one by [calls], the record of [username] carries that name; its secret
    is the draw of a registration call for [username]; its challenge and its
    window are both absent, or they are the draw and the window of one
    challenge call for [username]; and it is locked only if a verification
    call for [username] occurs. *)
Theorem record_provenance (calls : list call) (username : string) (u : ZKUser.t) :
  ZKServer.users (run ZKServer.__init__ calls) !! username = Some u ->
  ZKUser.name u = username /\
  In (Register username (ZKUser.key1 u)) calls /\
  match ZKUser.key2 u with
  | None => ZKUser.stime u = None
  | Some challenge =>
      exists now, In (IssueChallenge username challenge now) calls /\
                  ZKUser.stime u = Some (time_seed now 0)
  end /\
  (ZKUser.locked u = true ->
   exists token now1 now2, In (VerifyToken username token now1 now2) calls).
Proof.
  revert u. induction calls as [|c calls IH] using rev_ind; intros u.
  - simpl. rewrite lookup_empty. discriminate.
  - rewrite run_snoc.
    assert (Old : forall u0,
      ZKServer.users (run ZKServer.__init__ calls) !! username = Some u0 ->
      ZKUser.name u0 = username /\
      In (Register username (ZKUser.key1 u0)) (calls ++ [c]) /\
      match ZKUser.key2 u0 with
      | None => ZKUser.stime u0 = None
      | Some challenge =>
          exists now, In (IssueChallenge username challenge now) (calls ++ [c]) /\
                      ZKUser.stime u0 = Some (time_seed now 0)
      end /\
      (ZKUser.locked u0 = true ->
       exists token now1 now2, In (VerifyToken username token now1 now2) (calls ++ [c]))).
    { intros u0 H0. destruct (IH u0 H0) as (Hn & Hr & Hc & Hl).
      split; [exact Hn|]. split; [apply in_or_app; auto|]. split.
      - destruct (ZKUser.key2 u0); [|exact Hc].
        destruct Hc as (now & Hi & Hs). exists now. split; [apply in_or_app; auto|exact Hs].
      - intros L. destruct (Hl L) as (tok & n1 & n2 & Hv).
        exists tok, n1, n2. apply in_or_app. auto. }
    destruct (decide (target c = username)) as [E|Hne].
    2:{ rewrite (step_other _ _ _ Hne). apply Old. }
    destruct c as [n d | n d now | n tok now1 now2]; simpl in E; subst n; simpl.
    + destruct (ZKServer.users (run ZKServer.__init__ calls) !! username) as [u0|] eqn:E.
      * rewrite (register_existing _ _ _ _ E). simpl. rewrite E. intros [= <-].
        apply Old. reflexivity.
      * rewrite (register_new _ _ _ E). simpl. rewrite lookup_insert_eq. intros [= <-].
        simpl. split; [reflexivity|]. split; [apply in_or_app; right; left; reflexivity|].
        split; [reflexivity|discriminate].
    + destruct (ZKServer.users (run ZKServer.__init__ calls) !! username) as [u0|] eqn:E.
      * rewrite (issue_challenge_registered _ _ _ _ _ E). simpl.
        rewrite lookup_insert_eq. intros [= <-]. simpl.
        destruct (Old u0 eq_refl) as (Hn & Hr & _ & Hl).
        split; [exact Hn|]. split; [exact Hr|]. split; [|exact Hl].
        exists now. split; [apply in_or_app; right; left; reflexivity|reflexivity].
      * rewrite (issue_challenge_unregistered _ _ _ _ E). simpl. rewrite E. discriminate.
    + destruct (ZKServer.users (run ZKServer.__init__ calls) !! username) as [u0|] eqn:E.
      * rewrite (verify_token_registered _ _ _ _ _ _ E). simpl.
        rewrite lookup_insert_eq, verify_record. intros [= <-]. simpl.
        destruct (Old u0 eq_refl) as (Hn & Hr & Hc & _).
        split; [exact Hn|]. split; [exact Hr|]. split; [exact Hc|].
        intros _. exists tok, now1, now2. apply in_or_app. right. left. reflexivity.
      * rewrite (verify_token_unregistered _ _ _ _ _ E). simpl. rewrite E. discriminate.
Qed.

(** ** The lock and the window across calls *)

(** X10: a new challenge does not release the lock.  Once a record is
    locked, a challenge issued at [now] stores the window of [now] and leaves
    [locked] set, so every verification whose guard reads that window is
    rejected, for every submitted value, without anything being derived. *)
Theorem new_challenge_keeps_lock (s : ZKServer.t) (username : string) (u : ZKUser.t)
  (drawn : Z) (token : float) (now now1 now2 : datetime) :
  ZKServer.users s !! username = Some u ->
  ZKUser.locked u = true ->
  time_seed now1 0 = time_seed now 0 ->
  let s1 := snd (ZKServer.issue_challenge s username drawn now) in
  ZKServer.verify_token s1 username token now1 now2 = (Ok false, s1, []).
Proof.
  intros Hu Hl Hw s1.
  assert (H1 : ZKServer.users s1 !! username =
               Some (ZKUser.mk (ZKUser.name u) (ZKUser.key1 u) (Some drawn)
                               (Some (time_seed now 0)) true)).
  { subst s1. rewrite (issue_challenge_registered _ _ _ _ _ Hu). simpl.
    rewrite lookup_insert_eq, Hl. reflexivity. }
  rewrite (verify_token_registered _ _ _ _ _ _ H1), verify_guarded.
  - simpl. rewrite (server_insert_id _ _ _ H1). reflexivity.
  - unfold guard. simpl. apply Z.eqb_eq. symmetry. exact Hw.
Qed.

Lemma step_keeps_challenge (s : ZKServer.t) (c : call) (username : string) (u : ZKUser.t) :
  no_challenge_for username c ->
  ZKServer.users s !! username = Some u ->
  exists u',
    ZKServer.users (step s c) !! username = Some u' /\
    ZKUser.key1 u' = ZKUser.key1 u /\ ZKUser.key2 u' = ZKUser.key2 u /\
    ZKUser.stime u' = ZKUser.stime u.
Proof.
  intros Hc Hu. destruct (decide (target c = username)) as [E|Hne].
  2:{ rewrite (step_other _ _ _ Hne). eauto. }
  destruct c as [n d | n d now | n tok now1 now2]; simpl in *; subst n.
  - rewrite (register_existing _ _ _ _ Hu). simpl. eauto.
  - contradiction.
  - rewrite (verify_token_registered _ _ _ _ _ _ Hu). simpl.
    rewrite lookup_insert_eq, verify_record. eexists. split; [reflexivity|]. simpl. auto.
Qed.

Lemma run_keeps_challenge (calls : list call) (s : ZKServer.t) (username : string)
  (u : ZKUser.t) :
  Forall (no_challenge_for username) calls ->
  ZKServer.users s !! username = Some u ->
  exists u',
    ZKServer.users (run s calls) !! username = Some u' /\
    ZKUser.key1 u' = ZKUser.key1 u /\ ZKUser.key2 u' = ZKUser.key2 u /\
    ZKUser.stime u' = ZKUser.stime u.
Proof.
  intros H. revert s u. induction H as [|c calls Hc _ IH]; intros s u Hu.
  - exists u. auto.
  - destruct (step_keeps_challenge s c username u Hc Hu) as (u1 & H1 & K1 & K2 & K3).
    destruct (IH (step s c) u1 H1) as (u2 & H2 & J1 & J2 & J3).
    exists u2. split; [exact H2|]. repeat split; congruence.
Qed.

(** X11: the lock limits attempts in one window only.  Whatever calls were
    made since the record's window was stored, short of a new challenge for
    that identity, a verification whose guard reads another window than the
    stored one is evaluated: it returns the comparison of the submitted value
    with [tokenize(key1, key2, time_seed())], or raises what [tokenize]
    raises.  The number of earlier attempts plays no part. *)
Theorem attempts_outside_window_are_evaluated (calls : list call) (s : ZKServer.t)
  (username : string) (u : ZKUser.t) (token : float) (now1 now2 : datetime) :
  ZKServer.users s !! username = Some u ->
  Forall (no_challenge_for username) calls ->
  ZKUser.stime_eq (ZKUser.stime u) (time_seed now1 0) = false ->
  fst (fst (ZKServer.verify_token (run s calls) username token now1 now2)) =
    match tokenize (ZKUser.key1 u) (ZKUser.key2 u) (time_seed now2 0) with
    | Ok proof => Ok (proof =? token)%float
    | Raise e => Raise e
    end.
Proof.
  intros Hu Hc Hw.
  destruct (run_keeps_challenge calls s username u Hc Hu) as (u' & H' & K1 & K2 & K3).
  rewrite (verify_token_registered _ _ _ _ _ _ H'). simpl.
  rewrite verify_unguarded.
  - cbv zeta. rewrite K1, K2. destruct (tokenize _ _ _); reflexivity.
  - unfold guard. rewrite K3, Hw. apply andb_false_r.
Qed.

(** X12: a challenge replaces the previous one.  Issuing two challenges in
    a row for one identity returns the second draw and leaves the server
    exactly as issuing the second alone: nothing of the first challenge or of
    its window remains. *)
Theorem issue_challenge_overwrites (s : ZKServer.t) (username : string)
  (drawn1 drawn2 : Z) (now1 now2 : datetime) :
  ZKServer.issue_challenge (snd (ZKServer.issue_challenge s username drawn1 now1))
    username drawn2 now2 =
  ZKServer.issue_challenge s username drawn2 now2.
Proof.
  destruct (ZKServer.users s !! username) as [u|] eqn:E.
  - rewrite (issue_challenge_registered _ _ _ drawn1 now1 E). simpl.
    erewrite issue_challenge_registered by (simpl; apply lookup_insert_eq).
    rewrite (issue_challenge_registered _ _ _ drawn2 now2 E). simpl.
    rewrite insert_insert_eq. reflexivity.
  - rewrite (issue_challenge_unregistered _ _ drawn1 now1 E). simpl.
    reflexivity.
Qed.

(** X13: the [/challenge] route reads the clock a second time for the
    [seed] of its reply.  For a registered identity the reply carries the
    drawn challenge and the window of the second reading, and that is the
    window stored with the challenge exactly when both readings fall on the
    same day of the month and the same hour. *)
Theorem challenge_reply_window (s : ZKServer.t) (username : string) (u : ZKUser.t)
  (drawn : Z) (now now' : datetime) :
  ZKServer.users s !! username = Some u ->
  valid_datetime now -> valid_datetime now' ->
  fst (issue_challenge s username drawn now now') =
    Challenge username drawn (time_seed now' 0) /\
  exists u',
    ZKServer.users (snd (issue_challenge s username drawn now now')) !! username = Some u' /\
    ZKUser.key2 u' = Some drawn /\
    (ZKUser.stime u' = Some (time_seed now' 0) <-> day now = day now' /\ hour now = hour now').
Proof.
  intros Hu V V'. unfold issue_challenge.
  rewrite (issue_challenge_registered _ _ _ _ _ Hu). simpl.
  split; [reflexivity|]. rewrite lookup_insert_eq. eexists. split; [reflexivity|].
  simpl. split; [reflexivity|].
  apply valid_datetime_bounds in V. apply valid_datetime_bounds in V'.
  unfold time_seed. split.
  - intros [= H]. lia.
  - intros [-> ->]. reflexivity.
Qed.

(** X16: the replies of [/register] and [/challenge] are all it takes to
    pass [/verify].  For a registered identity that is not locked,
    [/register] answers with the stored secret whoever asks, [/challenge]
    with the new challenge, and [/verify] accepts the value [tokenize] gives
    for these two numbers and the window read during verification (provided
    the value equals itself, which excludes NaN). *)
Theorem routes_disclose_the_proof (s : ZKServer.t) (username : string) (u : ZKUser.t)
  (drawn0 drawn : Z) (token : float) (now now' now1 now2 : datetime) :
  ZKServer.users s !! username = Some u ->
  ZKUser.locked u = false ->
  tokenize (ZKUser.key1 u) (Some drawn) (time_seed now2 0) = Ok token ->
  (token =? token)%float = true ->
  let s1 := snd (register_user s username drawn0) in
  let s2 := snd (issue_challenge s1 username drawn now now') in
  fst (register_user s username drawn0) = Registered username (ZKUser.key1 u) /\
  fst (issue_challenge s1 username drawn now now') =
    Challenge username drawn (time_seed now' 0) /\
  fst (fst (verify_token s2 username token now1 now2)) = Authenticated.
Proof.
  intros Hu Hl Ht Heq s1 s2.
  assert (E1 : s1 = s).
  { subst s1. unfold register_user. rewrite (register_existing _ _ _ _ Hu). reflexivity. }
  assert (H2 : ZKServer.users s2 !! username =
               Some (ZKUser.mk (ZKUser.name u) (ZKUser.key1 u) (Some drawn)
                               (Some (time_seed now 0)) false)).
  { subst s2. rewrite E1. unfold issue_challenge.
    rewrite (issue_challenge_registered _ _ _ _ _ Hu). simpl.
    rewrite lookup_insert_eq, Hl. reflexivity. }
  split; [|split].
  - unfold register_user. rewrite (register_existing _ _ _ _ Hu). reflexivity.
  - rewrite E1. unfold issue_challenge.
    rewrite (issue_challenge_registered _ _ _ _ _ Hu). reflexivity.
  - unfold verify_token. rewrite (verify_token_registered _ _ _ _ _ _ H2).
    rewrite verify_unguarded by reflexivity. cbv zeta. simpl.
    rewrite Ht. simpl. rewrite Heq. reflexivity.
Qed.

(** ** The calculator *)

Section Calculator.
Context {B : Builtins}.

Lemma int_of_str_Some (s : string) (z : Z) : parse_int s = Some z -> int_of_str s = Ok z.
Proof. unfold int_of_str. intros ->. reflexivity. Qed.

Lemma int_of_str_None (s : string) :
  parse_int s = None -> int_of_str s = Raise (ValueError (parse_error s)).
Proof. unfold int_of_str. intros ->. reflexivity. Qed.

(** X14: no exception raised inside the [try] block of the calculator
    escapes it.  Whatever the three fields, the block ends in the error
    dictionary or reaches line 156 with a token to render; a field that
    [int] refuses is reported with the text of [int]'s error, the first such
    field in the order [key1], [key2], [seed].  The rendering call on line
    156 is outside the [try] and is not part of the statement. *)
Theorem calculate_tokenized_catches (key1 key2 seed : string) :
  ((exists msg, calculate_tokenized key1 key2 seed = CalcError msg) \/
   (exists v, calculate_tokenized key1 key2 seed = CalcPage v)) /\
  (parse_int key1 = None ->
   calculate_tokenized key1 key2 seed = CalcError (parse_error key1)) /\
  (is_Some (parse_int key1) -> parse_int key2 = None ->
   calculate_tokenized key1 key2 seed = CalcError (parse_error key2)) /\
  (is_Some (parse_int key1) -> is_Some (parse_int key2) -> parse_int seed = None ->
   calculate_tokenized key1 key2 seed = CalcError (parse_error seed)).
Proof.
  unfold calculate_tokenized, int_of_str.
  destruct (parse_int key1) as [k1|]; simpl.
  2:{ split; [eauto|]. split; [reflexivity|]. split; intros [? [=]]. }
  destruct (parse_int key2) as [k2|]; simpl.
  2:{ split; [eauto|]. split; [discriminate|]. split; [reflexivity|].
      intros _ [? [=]]. }
  destruct (parse_int seed) as [sd|]; simpl.
  2:{ split; [eauto|]. split; [discriminate|]. split; [discriminate|reflexivity]. }
  split; [|split; [discriminate|split; discriminate]].
  destruct (tokenize k1 (Some k2) sd) as [v|e] eqn:E; [eauto|].
  destruct (tokenize_raises _ _ _ _ E) as [-> | [-> | [-> | ->]]]; eauto.
Qed.

(** X15: what the calculator answers once the three fields are read as the
    integers [k1], [k2] and [s].  A negative key gives the error of
    [int('-')]; otherwise keys of different digit length give
    [Keys must be the same length.]; otherwise a position with
    [a * s**b < 0] gives [math domain error]; in every other case the token
    handed to the page is the rounded sum [derive_spec] of the three
    numbers. *)
Theorem calculate_tokenized_outcome (key1 key2 seed : string) (k1 k2 s : Z) :
  parse_int key1 = Some k1 -> parse_int key2 = Some k2 -> parse_int seed = Some s ->
  calculate_tokenized key1 key2 seed =
    if (k1 <? 0) || (k2 <? 0) then
      CalcError "invalid literal for int() with base 10: '-'"
    else if negb (digit_length k1 =? digit_length k2)%nat then
      CalcError "Keys must be the same length."
    else if no_negative_term (decimal_digits k1) (decimal_digits k2) s then
      CalcPage (derive_spec k1 k2 s)
    else CalcError "math domain error".
Proof.
  intros P1 P2 P3. unfold calculate_tokenized.
  rewrite (int_of_str_Some _ _ P1), (int_of_str_Some _ _ P2), (int_of_str_Some _ _ P3).
  simpl.
  destruct (Z.ltb_spec k1 0) as [N1|N1]; simpl.
  { rewrite (tokenize_negative_key1 _ _ _ N1). reflexivity. }
  destruct (Z.ltb_spec k2 0) as [N2|N2]; simpl.
  { rewrite (tokenize_negative_key2 _ _ _ N1 N2). reflexivity. }
  destruct (Nat.eqb_spec (digit_length k1) (digit_length k2)) as [L|L]; simpl.
  - rewrite (tokenize_equal_lengths _ _ _ N1 N2 L).
    destruct (no_negative_term _ _ _); reflexivity.
  - rewrite (tokenize_nonneg_keys _ _ _ N1 N2).
    apply Nat.eqb_neq in L as ->. reflexivity.
Qed.

End Calculator.
End MoreProperties.

(** * Concrete runs of the further properties *)

(** X5 at the keys -12 and 34. *)
Lemma tokenize_negative_key_witness :
  (-12 < 0 \/ 34 < 0) /\
  @tokenize Sample.lib (-12) (Some 34) 512 = Raise invalid_minus.
Proof.
  assert (H : -12 < 0 \/ 34 < 0) by (left; lia).
  split; [exact H|]. exact (@tokenize_negative_key Sample.lib (-12) 34 512 H).
Defined.

(** X6 at [noon] with alice's keys. *)
Lemma tokenize_at_time_window_witness :
  valid_datetime Sample.noon /\
  100 + 0 <= time_seed Sample.noon 0 <= 3123 + 0 /\
  @tokenize Sample.lib 1234 (Some 5678) (time_seed Sample.noon 0) =
    Ok (@derive_spec Sample.lib 1234 5678 (time_seed Sample.noon 0)).
Proof.
  assert (H1 : 0 <= 1234) by lia. assert (H2 : 0 <= 5678) by lia.
  split; [exact noon_valid|].
  destruct (@tokenize_at_time_window Sample.lib Sample.noon 0 1234 5678 noon_valid)
    as [R T].
  split; [exact R|]. exact (T H1 H2 eq_refl).
Defined.

Lemma bob_calls_spare_alice :
  Forall (fun c => target c <> "alice")
    [Register "bob" 4321; IssueChallenge "bob" 8765 Sample.noon;
     VerifyToken "bob" 0%float Sample.noon Sample.noon].
Proof. repeat constructor; simpl; discriminate. Qed.

(** X7: bob registers, is challenged and verifies; alice's record stays. *)
Lemma other_identities_untouched_witness :
  Forall (fun c => target c <> "alice")
    [Register "bob" 4321; IssueChallenge "bob" 8765 Sample.noon;
     VerifyToken "bob" 0%float Sample.noon Sample.noon] /\
  ZKServer.users
    (@run Sample.lib Sample.challenged
       [Register "bob" 4321; IssueChallenge "bob" 8765 Sample.noon;
        VerifyToken "bob" 0%float Sample.noon Sample.noon]) !! "alice" =
  ZKServer.users Sample.challenged !! "alice".
Proof.
  split; [exact bob_calls_spare_alice|].
  exact (@other_identities_untouched Sample.lib _ Sample.challenged "alice"
           bob_calls_spare_alice).
Defined.

(** X9 for alice after her registration and her challenge. *)
Lemma record_provenance_witness :
  ZKServer.users (@run Sample.lib ZKServer.__init__ Sample.session) !! "alice" =
    Some Sample.alice_challenged /\
  In (Register "alice" (ZKUser.key1 Sample.alice_challenged)) Sample.session.
Proof.
  assert (H : ZKServer.users (@run Sample.lib ZKServer.__init__ Sample.session) !! "alice" =
              Some Sample.alice_challenged) by (vm_compute; reflexivity).
  split; [exact H|].
  exact (proj1 (proj2 (@record_provenance Sample.lib Sample.session "alice"
                         Sample.alice_challenged H))).
Defined.

(** X10: alice, locked, is issued the challenge 9999 an hour later and is
    rejected in that hour. *)
Lemma new_challenge_keeps_lock_witness :
  ZKServer.users Sample.verified_once !! "alice" = Some Sample.alice_locked /\
  ZKUser.locked Sample.alice_locked = true /\
  time_seed Sample.hour_later 0 = time_seed Sample.hour_later 0 /\
  @ZKServer.verify_token Sample.lib
     (snd (ZKServer.issue_challenge Sample.verified_once "alice" 9999 Sample.hour_later))
     "alice" 0%float Sample.hour_later Sample.hour_later =
  (Ok false,
   snd (ZKServer.issue_challenge Sample.verified_once "alice" 9999 Sample.hour_later), []).
Proof.
  assert (H : ZKServer.users Sample.verified_once !! "alice" = Some Sample.alice_locked)
    by (vm_compute; reflexivity).
  split; [exact H|]. split; [reflexivity|]. split; [reflexivity|].
  exact (@new_challenge_keeps_lock Sample.lib Sample.verified_once "alice" Sample.alice_locked
           9999 0%float Sample.hour_later Sample.hour_later Sample.hour_later
           H eq_refl eq_refl).
Defined.

Lemma one_more_attempt :
  Forall (no_challenge_for "alice")
    [VerifyToken "alice" 0%float Sample.hour_later Sample.hour_later].
Proof. repeat constructor. Qed.

(** X11: alice, locked at [noon], tries again twice an hour later. *)
Lemma attempts_outside_window_are_evaluated_witness :
  ZKServer.users Sample.verified_once !! "alice" = Some Sample.alice_locked /\
  Forall (no_challenge_for "alice")
    [VerifyToken "alice" 0%float Sample.hour_later Sample.hour_later] /\
  ZKUser.stime_eq (ZKUser.stime Sample.alice_locked) (time_seed Sample.hour_later 0) = false /\
  fst (fst (@ZKServer.verify_token Sample.lib
              (@run Sample.lib Sample.verified_once
                 [VerifyToken "alice" 0%float Sample.hour_later Sample.hour_later])
              "alice" Sample.alice_proof Sample.hour_later Sample.hour_later)) =
    match @tokenize Sample.lib (ZKUser.key1 Sample.alice_locked)
            (ZKUser.key2 Sample.alice_locked) (time_seed Sample.hour_later 0) with
    | Ok proof => Ok (proof =? Sample.alice_proof)%float
    | Raise e => Raise e
    end.
Proof.
  assert (H : ZKServer.users Sample.verified_once !! "alice" = Some Sample.alice_locked)
    by (vm_compute; reflexivity).
  split; [exact H|]. split; [exact one_more_attempt|]. split; [reflexivity|].
  exact (@attempts_outside_window_are_evaluated Sample.lib _ Sample.verified_once "alice"
           Sample.alice_locked Sample.alice_proof Sample.hour_later Sample.hour_later
           H one_more_attempt eq_refl).
Defined.

(** X13: alice's challenge read at [noon], the reply an hour later. *)
Lemma challenge_reply_window_witness :
  ZKServer.users Sample.registered !! "alice" = Some Sample.alice_registered /\
  valid_datetime Sample.noon /\ valid_datetime Sample.hour_later /\
  fst (issue_challenge Sample.registered "alice" 5678 Sample.noon Sample.hour_later) =
    Challenge "alice" 5678 (time_seed Sample.hour_later 0).
Proof.
  assert (H : ZKServer.users Sample.registered !! "alice" = Some Sample.alice_registered)
    by (vm_compute; reflexivity).
  split; [exact H|]. split; [exact noon_valid|]. split; [exact hour_later_valid|].
  exact (proj1 (challenge_reply_window Sample.registered "alice" Sample.alice_registered
                  5678 Sample.noon Sample.hour_later H noon_valid hour_later_valid)).
Defined.

(** X14: the field [12a] is no numeral. *)
Lemma calculate_tokenized_catches_witness :
  @parse_int SampleForm.builtins "12a" = None /\
  @calculate_tokenized SampleForm.builtins Sample.lib "12a" "34" "5" =
    CalcError (@parse_error SampleForm.builtins "12a").
Proof.
  split; [reflexivity|].
  exact (proj1 (proj2 (@calculate_tokenized_catches Sample.lib SampleForm.builtins
                         "12a" "34" "5")) eq_refl).
Defined.

(** X15: the fields [12], [34] and [-5]. *)
Lemma calculate_tokenized_outcome_witness :
  @parse_int SampleForm.builtins "12" = Some 12 /\
  @parse_int SampleForm.builtins "34" = Some 34 /\
  @parse_int SampleForm.builtins "-5" = Some (-5) /\
  @calculate_tokenized SampleForm.builtins Sample.lib "12" "34" "-5" =
    CalcError "math domain error".
Proof.
  split; [reflexivity|]. split; [reflexivity|]. split; [reflexivity|].
  exact (@calculate_tokenized_outcome Sample.lib SampleForm.builtins "12" "34" "-5" 12 34 (-5)
           eq_refl eq_refl eq_refl).
Defined.

(** X16 for alice, challenged but not yet locked. *)
Lemma routes_disclose_the_proof_witness :
  ZKServer.users Sample.challenged !! "alice" = Some Sample.alice_challenged /\
  ZKUser.locked Sample.alice_challenged = false /\
  @tokenize Sample.lib (ZKUser.key1 Sample.alice_challenged) (Some 5678)
     (time_seed Sample.noon 0) = Ok Sample.alice_proof /\
  (Sample.alice_proof =? Sample.alice_proof)%float = true /\
  fst (register_user Sample.challenged "alice" 1111) = Registered "alice" 1234.
Proof.
  assert (H : ZKServer.users Sample.challenged !! "alice" = Some Sample.alice_challenged)
    by (vm_compute; reflexivity).
  assert (T : @tokenize Sample.lib (ZKUser.key1 Sample.alice_challenged) (Some 5678)
                (time_seed Sample.noon 0) = Ok Sample.alice_proof)
    by (vm_compute; reflexivity).
  assert (E : (Sample.alice_proof =? Sample.alice_proof)%float = true)
    by (vm_compute; reflexivity).
  split; [exact H|]. split; [reflexivity|]. split; [exact T|]. split; [exact E|].
  exact (proj1 (@routes_disclose_the_proof Sample.lib Sample.challenged "alice"
                  Sample.alice_challenged 1111 5678 Sample.alice_proof
                  Sample.noon Sample.noon Sample.noon Sample.noon H eq_refl T E)).
Defined.

(** X4 at the keys 12 and 123. *)
Lemma tokenize_failure_modes_witness :
  within_cap 12 /\
  (forall k, Some 123 = Some k -> within_cap k) /\
  @tokenize_sum Sample.lib 12 (Some 123) 512 = Raise length_mismatch.
Proof.
  assert (H1 : within_cap 12) by (vm_compute; reflexivity).
  assert (H2 : forall k, Some 123 = Some k -> within_cap k).
  { intros k [= <-]. vm_compute. reflexivity. }
  split; [exact H1|]. split; [exact H2|].
  destruct (proj2 (@tokenize_failure_modes Sample.lib 12 (Some 123) 512 H1 H2))
    as [[x Hx] | [H | [H | [H | H]]]]; try (vm_compute in H; discriminate).
  - vm_compute in Hx. discriminate.
  - exact H.
Defined.

(** * The rounding of the sum *)







Section Rounding.
Context {M : MathLib}.



End Rounding.


